(** * FocusPulse Elite: the live tracking engine and the session store

    A shallow embedding of [focuspulse/models.py], [focuspulse/tracker.py]
    and [focuspulse/database.py].

    Conventions of the embedding.
    - A Python [datetime] is the number of microseconds since
      0001-01-01T00:00:00 ([datetime.min]); a [timedelta] is a number of
      microseconds.  ISO-8601 text written by [datetime.isoformat] orders
      like the instants it denotes, so the TEXT timestamp column and the
      text comparison of the query are carried by the same integers.
    - Python floats are idealised as the real numbers [R]; [np.sin], [np.cos]
      and [np.mean] are the real sine, cosine and arithmetic mean.
    - Python ints are [Z].
    - Calls into the environment (clock, random generator, sleep) take their
      answer from an explicit environment record, and an answer may be an
      exception. *)

From Stdlib Require Import String ZArith Reals Lra Lia Bool Arith List.
From Stdlib Require Import Sorting.Sorted Sorting.Permutation.
Import ListNotations.

Local Open Scope Z_scope.

(** ** Time *)

Definition datetime := Z.
Definition timedelta := Z.

Definition MICROS_PER_SECOND : Z := 1000000.
Definition MICROS_PER_DAY : Z := 86400 * MICROS_PER_SECOND.

(** ** [collections.deque(maxlen=N)] *)

Module Deque.

Section Ops.
Context {A : Type}.

Record t := mk { maxlen : nat; items : list A }.

(** [deque(maxlen=n)] *)
Definition new (n : nat) : t := mk n [].

(** [d.append(v)]: the value is added on the right and, when the size then
      exceeds [maxlen], one element is popped from the left. *)
Definition append (d : t) (v : A) : t :=
    let l := items d ++ [v] in
    mk (maxlen d) (if (maxlen d <? length l)%nat then tl l else l).

(** [len(d)], [bool(d)] and [list(d)]. *)
Definition len (d : t) : nat := length (items d).
Definition truthy (d : t) : bool := negb (len d =? 0)%nat.
Definition to_list (d : t) : list A := items d.

(** A sequence of appends, oldest first. *)
Definition extend (d : t) (vs : list A) : t := fold_left append vs d.

(** The bound every deque built by [new] and [append] obeys. *)
Definition bounded (d : t) : Prop := (len d <= maxlen d)%nat.

(** The last [n] elements of a list. *)
Definition lastn (n : nat) (l : list A) : list A := skipn (length l - n) l.

End Ops.

Arguments t : clear implicits.

End Deque.


(** ** [focuspulse/models.py] *)

(** Nothing in the repository appends to [activity_events]; its elements are
    opaque labels here. *)
Definition activity_event := string.

Record LiveSessionData := mkLiveSessionData {
  start_time : datetime;
  current_app : string;
  current_window : string;
  duration_seconds : Z;
  focus_scores : Deque.t R;
  productivity_scores : Deque.t R;
  activity_events : Deque.t activity_event;
  timestamps : Deque.t datetime
}.

(** [LiveSessionData(start_time=.., current_app=.., current_window=..)]: the
    remaining fields take their dataclass defaults. *)
Definition new_LiveSessionData (st : datetime) (app win : string)
  : LiveSessionData :=
  {| start_time := st;
     current_app := app;
     current_window := win;
     duration_seconds := 0;
     focus_scores := Deque.new 300;
     productivity_scores := Deque.new 300;
     activity_events := Deque.new 60;
     timestamps := Deque.new 300 |}.

(** ** Python values held by database rows and session records *)

Inductive pyval :=
| PyNone
| PyBool (b : bool)
| PyInt (z : Z)
| PyFloat (r : R)
| PyStr (s : string).

(** Truth value of a Python object, as [or], [if] and [bool()] take it. *)
Definition py_truthy (v : pyval) : bool :=
  match v with
  | PyNone => false
  | PyBool b => b
  | PyInt z => negb (z =? 0)
  | PyFloat r => if Req_dec_T r 0 then false else true
  | PyStr s => negb (String.length s =? 0)%nat
  end.

(** [x or d] *)
Definition py_or (x d : pyval) : pyval := if py_truthy x then x else d.

(** [max(a, b)] and [min(a, b)] on numbers: the first argument is kept
    unless the second is strictly greater (resp. smaller). *)
Definition py_max (a b : R) : R := if Rgt_dec b a then b else a.
Definition py_min (a b : R) : R := if Rlt_dec b a then b else a.

(** [np.mean(list(d))] on a non-empty sequence. *)
Definition np_mean (l : list R) : R :=
  (fold_right Rplus 0 l / INR (List.length l))%R.

(** ** Exceptions *)

Inductive exn :=
| AttributeError (detail : string)
| OverflowError (detail : string)
| OperationalError (detail : string)
| RuntimeError (detail : string)
| TypeError (detail : string).

Inductive result (A : Type) :=
| Ok (a : A)
| Raise (e : exn).

Arguments Ok {A} a.
Arguments Raise {A} e.

Definition bind {A B : Type} (r : result A) (k : A -> result B) : result B :=
  match r with
  | Ok a => k a
  | Raise e => Raise e
  end.

Notation "x <- r ;; k" := (bind r (fun x => k))
  (at level 61, r at next level, right associativity).

(** ** Calendar: [datetime(y, m, d, hh, mm, ss)] and [d - timedelta(days=n)] *)

Definition is_leap (y : Z) : bool :=
  (y mod 4 =? 0) && (negb (y mod 100 =? 0) || (y mod 400 =? 0)).

Definition days_before_year (year : Z) : Z :=
  let y := year - 1 in y * 365 + y / 4 - y / 100 + y / 400.

Definition days_before_month (year month : Z) : Z :=
  nth (Z.to_nat month) [0; 0; 31; 59; 90; 120; 151; 181; 212; 243; 273; 304; 334] 0
  + (if (2 <? month) && is_leap year then 1 else 0).

(** [date(y, m, d).toordinal()]: 0001-01-01 is day 1. *)
Definition ymd2ord (y m d : Z) : Z :=
  days_before_year y + days_before_month y m + d.

Definition datetime_of (y m d hh mm ss : Z) : datetime :=
  (ymd2ord y m d - 1) * MICROS_PER_DAY
  + (hh * 3600 + mm * 60 + ss) * MICROS_PER_SECOND.

(** [datetime.max] is 9999-12-31T23:59:59.999999. *)
Definition DATETIME_MAX : datetime := 3652059 * MICROS_PER_DAY - 1.

(** [timedelta(days=n)]: at most 999999999 days in either direction. *)
Definition timedelta_days (n : Z) : result timedelta :=
  if (Z.abs n <=? 999999999)
  then Ok (n * MICROS_PER_DAY)
  else Raise (OverflowError "days out of range").

(** [d - td] on a datetime. *)
Definition datetime_sub (d : datetime) (td : timedelta) : result datetime :=
  let r := d - td in
  if (0 <=? r) && (r <=? DATETIME_MAX)
  then Ok r
  else Raise (OverflowError "date value out of range").

(** [(a - b).total_seconds()] is a float; it is kept as the exact number of
    microseconds, from which the three uses of [elapsed] are read. *)
Definition total_seconds (td : timedelta) : R :=
  (IZR td / IZR MICROS_PER_SECOND)%R.

(** [int(elapsed)] truncates towards zero. *)
Definition int_of_seconds (td : timedelta) : Z := Z.quot td MICROS_PER_SECOND.

(** [elapsed % 10 < 1]: Python's [%] takes the sign of the divisor. *)
Definition in_first_second_of_ten (td : timedelta) : bool :=
  td mod (10 * MICROS_PER_SECOND) <? MICROS_PER_SECOND.

(** ** [focuspulse/database.py] *)

Module Database.

(** One tuple of [cursor.fetchall()] for [SELECT * FROM sessions]: the 24
    columns of the table in declaration order.  [id] is the integer primary
    key, [timestamp] and [application] are TEXT NOT NULL; every other column
    is nullable and dynamically typed. *)
Record Row := mkRow {
  col_id : Z;
  col_timestamp : datetime;
  col_application : string;
  col_window_title : pyval;
  col_duration_seconds : pyval;
  col_category : pyval;
  col_subcategory : pyval;
  col_focus_score : pyval;
  col_productivity_score : pyval;
  col_distraction_score : pyval;
  col_typing_events : pyval;
  col_mouse_events : pyval;
  col_clicks : pyval;
  col_scrolls : pyval;
  col_app_switches : pyval;
  col_idle_time : pyval;
  col_active_time : pyval;
  col_peak_activity_period : pyval;
  col_energy_level : pyval;
  col_context_switches : pyval;
  col_memory_usage_mb : pyval;
  col_cpu_usage_percent : pyval;
  col_screen_time_quality : pyval;
  col_break_compliance : pyval
}.

(** [AdvancedFocusSession] as [models.py] defines it: a dataclass whose body
    is [pass].  It has no field, its generated [__init__] takes no argument,
    and an instance has no attribute of its own. *)
Inductive AdvancedFocusSession := mkAdvancedFocusSession.

(** The keyword arguments [get_sessions] passes to [AdvancedFocusSession]. *)
Record Kwargs := mkKwargs {
  id : Z;
  timestamp : datetime;
  application : string;
  window_title : pyval;
  duration_seconds : pyval;
  category : pyval;
  subcategory : pyval;
  focus_score : pyval;
  productivity_score : pyval;
  distraction_score : pyval;
  typing_events : pyval;
  mouse_events : pyval;
  clicks : pyval;
  scrolls : pyval;
  app_switches : pyval;
  idle_time : pyval;
  active_time : pyval;
  peak_activity_period : pyval;
  energy_level : pyval;
  context_switches : pyval;
  memory_usage_mb : pyval;
  cpu_usage_percent : pyval;
  screen_time_quality : pyval;
  break_compliance : pyval
}.

(** [AdvancedFocusSession(id=..., timestamp=..., ...)]: the class accepts no
    keyword argument. *)
Definition AdvancedFocusSession_init (kw : Kwargs) : result AdvancedFocusSession :=
  Raise (TypeError "AdvancedFocusSession.__init__() got an unexpected keyword argument 'id'").

(** [session.<name>] on an instance of the class. *)
Definition getattr (s : AdvancedFocusSession) (name : string) : result pyval :=
  Raise (AttributeError name).

(** The [sessions] table: its rows in rowid order and the AUTOINCREMENT
    counter kept for it in [sqlite_sequence]. *)
Record Table := mkTable { rows : list Row; seq : Z }.

(** The database file: the [sessions] table when it exists. *)
Definition t := option Table.

(** One parameter tuple of [demo_sessions], with the Python type each
    position has in the source literal. *)
Record SessionParams := mkParams {
  p_timestamp : datetime;
  p_application : string;
  p_window_title : string;
  p_duration_seconds : Z;
  p_category : string;
  p_subcategory : string;
  p_focus_score : Z;
  p_productivity_score : Z;
  p_distraction_score : Z;
  p_typing_events : Z;
  p_mouse_events : Z;
  p_clicks : Z;
  p_scrolls : Z;
  p_app_switches : Z;
  p_idle_time : Z;
  p_active_time : Z;
  p_peak_activity_period : string;
  p_energy_level : R;
  p_context_switches : Z;
  p_memory_usage_mb : Z;
  p_cpu_usage_percent : Z;
  p_screen_time_quality : string;
  p_break_compliance : bool
}.

(** An integer bound to a REAL column is stored, and read back, as a float;
    a Python bool is bound as the integer 0 or 1. *)
Definition real_of_int (z : Z) : pyval := PyFloat (IZR z).
Definition int_of_bool (b : bool) : pyval := PyInt (if b then 1 else 0).

(** The row an INSERT of [p] leaves in the table under rowid [i]. *)
Definition row_of_params (i : Z) (p : SessionParams) : Row :=
  {| col_id := i;
     col_timestamp := p_timestamp p;
     col_application := p_application p;
     col_window_title := PyStr (p_window_title p);
     col_duration_seconds := PyInt (p_duration_seconds p);
     col_category := PyStr (p_category p);
     col_subcategory := PyStr (p_subcategory p);
     col_focus_score := real_of_int (p_focus_score p);
     col_productivity_score := real_of_int (p_productivity_score p);
     col_distraction_score := real_of_int (p_distraction_score p);
     col_typing_events := PyInt (p_typing_events p);
     col_mouse_events := PyInt (p_mouse_events p);
     col_clicks := PyInt (p_clicks p);
     col_scrolls := PyInt (p_scrolls p);
     col_app_switches := PyInt (p_app_switches p);
     col_idle_time := real_of_int (p_idle_time p);
     col_active_time := real_of_int (p_active_time p);
     col_peak_activity_period := PyStr (p_peak_activity_period p);
     col_energy_level := PyFloat (p_energy_level p);
     col_context_switches := PyInt (p_context_switches p);
     col_memory_usage_mb := real_of_int (p_memory_usage_mb p);
     col_cpu_usage_percent := real_of_int (p_cpu_usage_percent p);
     col_screen_time_quality := PyStr (p_screen_time_quality p);
     col_break_compliance := int_of_bool (p_break_compliance p) |}.

(** [DROP TABLE IF EXISTS sessions]: the table goes, and with it its entry
    in [sqlite_sequence]. *)
Definition drop_table_if_exists (db : t) : t := None.

(** [CREATE TABLE sessions (...)] *)
Definition create_table (db : t) : result t :=
  match db with
  | None => Ok (Some (mkTable [] 0))
  | Some _ => Raise (OperationalError "table sessions already exists")
  end.

(** SQLite integers have 64 bits; the binding of a Python int outside of
    them raises OverflowError. *)
Definition INT64_MAX : Z := 2 ^ 63 - 1.
Definition INT64_MIN : Z := - 2 ^ 63.

Definition fits_int64 (z : Z) : bool := (INT64_MIN <=? z) && (z <=? INT64_MAX).

Definition bindable (p : SessionParams) : bool :=
  forallb fits_int64
    [ p_duration_seconds p; p_focus_score p; p_productivity_score p;
      p_distraction_score p; p_typing_events p; p_mouse_events p; p_clicks p;
      p_scrolls p; p_app_switches p; p_idle_time p; p_active_time p;
      p_context_switches p; p_memory_usage_mb p; p_cpu_usage_percent p ].

(** One [INSERT INTO sessions (...) VALUES (?, ..., ?)]: the statement is
    prepared (the table must exist), the parameters are bound, and the row
    is written under the id that follows the AUTOINCREMENT counter, which
    cannot go past the largest 64-bit integer. *)
Definition insert (db : t) (p : SessionParams) : result t :=
  match db with
  | None => Raise (OperationalError "no such table: sessions")
  | Some tb =>
      if negb (bindable p)
      then Raise (OverflowError "Python int too large to convert to SQLite INTEGER")
      else if INT64_MAX <=? seq tb
      then Raise (OperationalError "database or disk is full")
      else
        let i := seq tb + 1 in
        Ok (Some (mkTable (rows tb ++ [row_of_params i p]) i))
  end.

(** [cursor.executemany(INSERT ..., ps)] *)
Fixpoint executemany (db : t) (ps : list SessionParams) : result t :=
  match ps with
  | [] => Ok db
  | p :: ps' => db' <- insert db p ;; executemany db' ps'
  end.

Definition demo_sessions : list SessionParams :=
  [ mkParams (datetime_of 2025 8 24 9 0 0) "vscode.exe"
      "Python Development - FocusPulse Masterpiece" 4200
      "Development" "Coding" 96 98 4 220 380 110 30 1
      180 4020 "morning" 9.8%R 1 320 18 "exceptional" true;
    mkParams (datetime_of 2025 8 24 11 15 0) "figma.exe"
      "UI/UX Design - Masterpiece Interface" 3600
      "Design" "UI/UX" 94 96 6 180 320 85 20 1
      200 3400 "morning" 9.5%R 1 280 22 "exceptional" true;
    mkParams (datetime_of 2025 8 24 14 30 0) "chrome.exe"
      "Research - Best Design Practices" 2100
      "Research" "Web" 88 90 12 120 240 95 35 3
      120 1980 "afternoon" 8.8%R 2 380 30 "excellent" true;
    mkParams (datetime_of 2025 8 24 16 45 0) "notion.so"
      "Documentation - Technical Specs" 2700
      "Productivity" "Writing" 91 93 9 160 220 60 25 1
      180 2520 "afternoon" 9.1%R 1 340 25 "exceptional" true;
    mkParams (datetime_of 2025 8 23 10 0 0) "photoshop.exe"
      "Creative Design - Brand Assets" 3900
      "Design" "Graphics" 93 91 8 200 350 90 35 2
      240 3660 "morning" 9.2%R 1 450 35 "exceptional" true ].

Definition _insert_masterpiece_data (db : t) : result t :=
  executemany db demo_sessions.

(** [init_database].  The two schema statements take effect as they run;
    the inserts are made durable by [conn.commit()], so an error raised
    among them leaves the empty table.  The [except] clause swallows the
    error. *)
Definition init_database (db : t) : t :=
  let db1 := drop_table_if_exists db in
  match create_table db1 with
  | Raise _ => db1
  | Ok db2 =>
      match _insert_masterpiece_data db2 with
      | Raise _ => db2
      | Ok db3 => db3
      end
  end.

(** [AdvancedDatabaseManager(db_path)]: the constructor stores the path and
    calls [init_database] on the file found there. *)
Definition AdvancedDatabaseManager (file : t) : t := init_database file.

(** [cutoff_date = datetime.now() - timedelta(days=days)] *)
Definition cutoff_date (now : datetime) (days : Z) : result datetime :=
  td <- timedelta_days days ;; datetime_sub now td.

(** [WHERE timestamp >= ?] *)
Definition where_timestamp_ge (cutoff : datetime) (l : list Row) : list Row :=
  filter (fun r => cutoff <=? col_timestamp r) l.

(** [ORDER BY timestamp DESC]: an insertion sort that keeps rows of equal
    timestamp in the order of the scan. *)
Fixpoint insert_desc (r : Row) (l : list Row) : list Row :=
  match l with
  | [] => [r]
  | x :: xs =>
      if col_timestamp r <? col_timestamp x
      then x :: insert_desc r xs
      else r :: l
  end.

Definition order_by_timestamp_desc (l : list Row) : list Row :=
  fold_right insert_desc [] l.

(** [SELECT * FROM sessions WHERE timestamp >= ? ORDER BY timestamp DESC] *)
Definition select_sessions (db : t) (cutoff : datetime) : result (list Row) :=
  match db with
  | None => Raise (OperationalError "no such table: sessions")
  | Some tb => Ok (order_by_timestamp_desc (where_timestamp_ge cutoff (rows tb)))
  end.

(** [bool(row[23]) if row[23] is not None else False] *)
Definition break_compliance_of (v : pyval) : pyval :=
  match v with
  | PyNone => PyBool false
  | _ => PyBool (py_truthy v)
  end.

(** The keyword arguments of the [AdvancedFocusSession(...)] call, for one
    fetched row. *)
Definition session_kwargs (row : Row) : Kwargs :=
  {| id := col_id row;
     timestamp := col_timestamp row;
     application := col_application row;
     window_title := py_or (col_window_title row) (PyStr "");
     duration_seconds := py_or (col_duration_seconds row) (PyInt 0);
     category := py_or (col_category row) (PyStr "Uncategorized");
     subcategory := py_or (col_subcategory row) (PyStr "Unknown");
     focus_score := py_or (col_focus_score row) (PyFloat 50);
     productivity_score := py_or (col_productivity_score row) (PyFloat 50);
     distraction_score := py_or (col_distraction_score row) (PyFloat 50);
     typing_events := py_or (col_typing_events row) (PyInt 0);
     mouse_events := py_or (col_mouse_events row) (PyInt 0);
     clicks := py_or (col_clicks row) (PyInt 0);
     scrolls := py_or (col_scrolls row) (PyInt 0);
     app_switches := py_or (col_app_switches row) (PyInt 0);
     idle_time := py_or (col_idle_time row) (PyFloat 0);
     active_time := py_or (col_active_time row) (PyFloat 0);
     peak_activity_period := py_or (col_peak_activity_period row) (PyStr "");
     energy_level := py_or (col_energy_level row) (PyFloat 5);
     context_switches := py_or (col_context_switches row) (PyInt 0);
     memory_usage_mb := py_or (col_memory_usage_mb row) (PyFloat 0);
     cpu_usage_percent := py_or (col_cpu_usage_percent row) (PyFloat 0);
     screen_time_quality := py_or (col_screen_time_quality row) (PyStr "good");
     break_compliance := break_compliance_of (col_break_compliance row) |}.

(** The [AdvancedFocusSession(...)] call in the loop over the rows: the
    arguments are evaluated, then the class is called with them. *)
Definition session_of_row (row : Row) : result AdvancedFocusSession :=
  AdvancedFocusSession_init (session_kwargs row).

(** [for row in cursor.fetchall(): ... sessions.append(session)] *)
Fixpoint build_sessions (fetched : list Row) : result (list AdvancedFocusSession) :=
  match fetched with
  | [] => Ok []
  | row :: rest =>
      session <- session_of_row row ;;
      sessions <- build_sessions rest ;;
      Ok (session :: sessions)
  end.

(** [get_sessions(days)]: the [try] block, then the method with its
    [except] clause, which returns the empty list. *)
Definition get_sessions_try (db : t) (now : datetime) (days : Z)
  : result (list AdvancedFocusSession) :=
  cutoff <- cutoff_date now days ;;
  fetched <- select_sessions db cutoff ;;
  build_sessions fetched.

Definition get_sessions (db : t) (now : datetime) (days : Z)
  : list AdvancedFocusSession :=
  match get_sessions_try db now days with
  | Ok sessions => sessions
  | Raise _ => []
  end.

End Database.

(** ** [focuspulse/tracker.py] *)

(** What the tracker writes to its logger. *)
Inductive level := INFO | ERROR.

Inductive log_msg :=
| MsgStarted                                  (* "Started masterpiece tracking session" *)
| MsgCompleted (duration : Z) (avg_focus : R) (* "Session completed: {d}s, Focus: {f:.1f}" *)
| MsgStopped                                  (* "Stopped tracking session" *)
| MsgTrackingError (e : exn).                 (* "Tracking error: {e}" *)

(** The effects of a tracker method that are visible outside the object. *)
Inductive event :=
| EvLog (lv : level) (m : log_msg)
| EvThreadStart.   (* threading.Thread(target=self._tracking_loop, daemon=True).start() *)

(** The attributes of a [MasterpieceActivityTracker].  [db_manager] stands
    for the database file its manager is bound to. *)
Record Tracker := mkTracker {
  db_manager : Database.t;
  current_session : option Database.AdvancedFocusSession;
  live_session : option LiveSessionData;
  is_tracking : bool;
  session_start_time : option datetime;
  typing_events : Z;
  mouse_events : Z;
  app_switches : Z
}.

(** [MasterpieceActivityTracker()], given the database file it finds. *)
Definition MasterpieceActivityTracker (file : Database.t) : Tracker :=
  {| db_manager := Database.AdvancedDatabaseManager file;
     current_session := None;
     live_session := None;
     is_tracking := false;
     session_start_time := None;
     typing_events := 0;
     mouse_events := 0;
     app_switches := 0 |}.

(** Attribute assignments. *)
Definition set_live_session (v : option LiveSessionData) (t : Tracker) : Tracker :=
  mkTracker (db_manager t) (current_session t) v (is_tracking t)
            (session_start_time t) (typing_events t) (mouse_events t)
            (app_switches t).

Definition set_is_tracking (v : bool) (t : Tracker) : Tracker :=
  mkTracker (db_manager t) (current_session t) (live_session t) v
            (session_start_time t) (typing_events t) (mouse_events t)
            (app_switches t).

Definition set_session_start_time (v : option datetime) (t : Tracker) : Tracker :=
  mkTracker (db_manager t) (current_session t) (live_session t) (is_tracking t)
            v (typing_events t) (mouse_events t) (app_switches t).

Definition set_typing_events (v : Z) (t : Tracker) : Tracker :=
  mkTracker (db_manager t) (current_session t) (live_session t) (is_tracking t)
            (session_start_time t) v (mouse_events t) (app_switches t).

Definition set_mouse_events (v : Z) (t : Tracker) : Tracker :=
  mkTracker (db_manager t) (current_session t) (live_session t) (is_tracking t)
            (session_start_time t) (typing_events t) v (app_switches t).

Definition set_app_switches (v : Z) (t : Tracker) : Tracker :=
  mkTracker (db_manager t) (current_session t) (live_session t) (is_tracking t)
            (session_start_time t) (typing_events t) (mouse_events t) v.

Definition set_duration_seconds (v : Z) (s : LiveSessionData) : LiveSessionData :=
  mkLiveSessionData (start_time s) (current_app s) (current_window s) v
                    (focus_scores s) (productivity_scores s)
                    (activity_events s) (timestamps s).

Definition set_focus_scores (v : Deque.t R) (s : LiveSessionData) : LiveSessionData :=
  mkLiveSessionData (start_time s) (current_app s) (current_window s)
                    (duration_seconds s) v (productivity_scores s)
                    (activity_events s) (timestamps s).

Definition set_productivity_scores (v : Deque.t R) (s : LiveSessionData)
  : LiveSessionData :=
  mkLiveSessionData (start_time s) (current_app s) (current_window s)
                    (duration_seconds s) (focus_scores s) v
                    (activity_events s) (timestamps s).

Definition set_timestamps (v : Deque.t datetime) (s : LiveSessionData)
  : LiveSessionData :=
  mkLiveSessionData (start_time s) (current_app s) (current_window s)
                    (duration_seconds s) (focus_scores s)
                    (productivity_scores s) (activity_events s) v.

(** *** [start_tracking] *)

Definition start_tracking (now : datetime) (t : Tracker) : Tracker * list event :=
  if is_tracking t then (t, [])
  else
    let t1 := set_is_tracking true t in
    let t2 := set_session_start_time (Some now) t1 in
    let t3 := set_typing_events 0 t2 in
    let t4 := set_mouse_events 0 t3 in
    let t5 := set_app_switches 0 t4 in
    let t6 := set_live_session
                (Some (new_LiveSessionData now "FocusPulse Elite"
                         "Productivity Tracking Session")) t5 in
    (t6, [EvLog INFO MsgStarted; EvThreadStart]).

(** *** [stop_tracking] *)

(** The two locals [avg_focus] and [avg_productivity]. *)
Definition avg_focus (s : LiveSessionData) : R :=
  if Deque.truthy (focus_scores s)
  then np_mean (Deque.to_list (focus_scores s))
  else 85%R.

Definition avg_productivity (s : LiveSessionData) : R :=
  if Deque.truthy (productivity_scores s)
  then np_mean (Deque.to_list (productivity_scores s))
  else 88%R.

(** The body of [if self.live_session and self.live_session.duration_seconds > 10]:
    both means are computed, the first one is logged, and the call that
    would persist the session is a comment. *)
Definition finalize_session (t : Tracker) : list event :=
  match live_session t with
  | Some s =>
      if duration_seconds s >? 10
      then
        let af := avg_focus s in
        let ap := avg_productivity s in
        [EvLog INFO (MsgCompleted (duration_seconds s) af)]
      else []
  | None => []
  end.

Definition stop_tracking (t : Tracker) : Tracker * list event :=
  if negb (is_tracking t) then (t, [])
  else
    let t1 := set_is_tracking false t in
    let evs := finalize_session t1 in
    let t2 := set_live_session None t1 in
    (t2, evs ++ [EvLog INFO MsgStopped]).

(** *** [get_live_session_data] *)

Definition get_live_session_data (t : Tracker) : option LiveSessionData :=
  live_session t.

(** *** [_tracking_loop]

    The loop runs on its own thread, next to the callers of [start_tracking]
    and [stop_tracking].  A thread is a program point and the loop's local
    variables; one step runs one statement of the source, which is taken as
    atomic. *)

Inductive pc :=
| AtWhile        (* while self.is_tracking: *)
| AtIfSession    (* if self.live_session: *)
| AtNow          (* current_time = datetime.now() *)
| AtElapsed      (* elapsed = (current_time - self.live_session.start_time).total_seconds() *)
| AtBaseFocus    (* base_focus = 85 + 10 * np.sin(elapsed / 60) *)
| AtNoise        (* noise = np.random.normal(0, 5) *)
| AtFocusScore   (* focus_score = max(20, min(100, base_focus + noise)) *)
| AtBaseProd     (* base_prod = 88 + 8 * np.cos(elapsed / 45) *)
| AtProdNoise    (* prod_noise = np.random.normal(0, 4) *)
| AtProdScore    (* productivity_score = max(30, min(100, base_prod + prod_noise)) *)
| AtSetDuration  (* self.live_session.duration_seconds = int(elapsed) *)
| AtAppendFocus  (* self.live_session.focus_scores.append(focus_score) *)
| AtAppendProd   (* self.live_session.productivity_scores.append(productivity_score) *)
| AtAppendTime   (* self.live_session.timestamps.append(current_time) *)
| AtIfTenth      (* if elapsed % 10 < 1: *)
| AtTyping       (* self.typing_events += np.random.randint(5, 15) *)
| AtMouse        (* self.mouse_events += np.random.randint(2, 8) *)
| AtSleep        (* time.sleep(1) *)
| Exited.        (* the loop has returned *)

Record Locals := mkLocals {
  current_time : datetime;
  elapsed : timedelta;
  base_focus : R;
  noise : R;
  focus_score : R;
  base_prod : R;
  prod_noise : R;
  productivity_score : R
}.

Record Thread := mkThread { at_pc : pc; locals : Locals }.

(** A thread as [Thread.start()] leaves it: about to test the loop guard,
    no local bound yet. *)
Definition new_thread : Thread :=
  mkThread AtWhile (mkLocals 0 0 0 0 0 0 0 0).

(** What the environment answers during one pass through the loop body. *)
Record Env := mkEnv {
  env_now : result datetime;   (* datetime.now() *)
  env_noise : result R;        (* np.random.normal(0, 5) *)
  env_prod_noise : result R;   (* np.random.normal(0, 4) *)
  env_typing : result Z;       (* np.random.randint(5, 15) *)
  env_mouse : result Z;        (* np.random.randint(2, 8) *)
  env_sleep : result unit      (* time.sleep(1) *)
}.

(** [self.live_session.<attr>]: an attribute of [None] does not exist. *)
Definition the_live_session (t : Tracker) (attr : string) : result LiveSessionData :=
  match live_session t with
  | Some s => Ok s
  | None => Raise (AttributeError attr)
  end.

Definition goto (p : pc) (th : Thread) : Thread := mkThread p (locals th).

Definition focus_of (base n : R) : R := py_max 20 (py_min 100 (base + n)).
Definition productivity_of (base n : R) : R := py_max 30 (py_min 100 (base + n)).

(** One statement of the loop. *)
Definition exec_stmt (e : Env) (t : Tracker) (th : Thread)
  : result (Tracker * Thread) :=
  let l := locals th in
  match at_pc th with
  | AtWhile =>
      Ok (t, goto (if is_tracking t then AtIfSession else Exited) th)
  | AtIfSession =>
      Ok (t, goto (match live_session t with
                   | Some _ => AtNow
                   | None => AtSleep
                   end) th)
  | AtNow =>
      ct <- env_now e ;;
      Ok (t, mkThread AtElapsed
               (mkLocals ct (elapsed l) (base_focus l) (noise l) (focus_score l)
                         (base_prod l) (prod_noise l) (productivity_score l)))
  | AtElapsed =>
      s <- the_live_session t "start_time" ;;
      Ok (t, mkThread AtBaseFocus
               (mkLocals (current_time l) (current_time l - start_time s)
                         (base_focus l) (noise l) (focus_score l)
                         (base_prod l) (prod_noise l) (productivity_score l)))
  | AtBaseFocus =>
      Ok (t, mkThread AtNoise
               (mkLocals (current_time l) (elapsed l)
                         (85 + 10 * sin (total_seconds (elapsed l) / 60))%R
                         (noise l) (focus_score l)
                         (base_prod l) (prod_noise l) (productivity_score l)))
  | AtNoise =>
      n <- env_noise e ;;
      Ok (t, mkThread AtFocusScore
               (mkLocals (current_time l) (elapsed l) (base_focus l) n
                         (focus_score l)
                         (base_prod l) (prod_noise l) (productivity_score l)))
  | AtFocusScore =>
      Ok (t, mkThread AtBaseProd
               (mkLocals (current_time l) (elapsed l) (base_focus l) (noise l)
                         (focus_of (base_focus l) (noise l))
                         (base_prod l) (prod_noise l) (productivity_score l)))
  | AtBaseProd =>
      Ok (t, mkThread AtProdNoise
               (mkLocals (current_time l) (elapsed l) (base_focus l) (noise l)
                         (focus_score l)
                         (88 + 8 * cos (total_seconds (elapsed l) / 45))%R
                         (prod_noise l) (productivity_score l)))
  | AtProdNoise =>
      n <- env_prod_noise e ;;
      Ok (t, mkThread AtProdScore
               (mkLocals (current_time l) (elapsed l) (base_focus l) (noise l)
                         (focus_score l) (base_prod l) n (productivity_score l)))
  | AtProdScore =>
      Ok (t, mkThread AtSetDuration
               (mkLocals (current_time l) (elapsed l) (base_focus l) (noise l)
                         (focus_score l) (base_prod l) (prod_noise l)
                         (productivity_of (base_prod l) (prod_noise l))))
  | AtSetDuration =>
      s <- the_live_session t "duration_seconds" ;;
      Ok (set_live_session
            (Some (set_duration_seconds (int_of_seconds (elapsed l)) s)) t,
          goto AtAppendFocus th)
  | AtAppendFocus =>
      s <- the_live_session t "focus_scores" ;;
      Ok (set_live_session
            (Some (set_focus_scores
                     (Deque.append (focus_scores s) (focus_score l)) s)) t,
          goto AtAppendProd th)
  | AtAppendProd =>
      s <- the_live_session t "productivity_scores" ;;
      Ok (set_live_session
            (Some (set_productivity_scores
                     (Deque.append (productivity_scores s) (productivity_score l))
                     s)) t,
          goto AtAppendTime th)
  | AtAppendTime =>
      s <- the_live_session t "timestamps" ;;
      Ok (set_live_session
            (Some (set_timestamps
                     (Deque.append (timestamps s) (current_time l)) s)) t,
          goto AtIfTenth th)
  | AtIfTenth =>
      Ok (t, goto (if in_first_second_of_ten (elapsed l)
                   then AtTyping else AtSleep) th)
  | AtTyping =>
      r <- env_typing e ;;
      Ok (set_typing_events (typing_events t + r) t, goto AtMouse th)
  | AtMouse =>
      r <- env_mouse e ;;
      Ok (set_mouse_events (mouse_events t + r) t, goto AtSleep th)
  | AtSleep =>
      _ <- env_sleep e ;;
      Ok (t, goto AtWhile th)
  | Exited => Ok (t, th)
  end.

(** One step of a loop thread: the statement, under the [try] of the loop
    body.  [except Exception as e] logs the error and leaves the loop. *)
Definition thread_step (e : Env) (t : Tracker) (th : Thread)
  : Tracker * Thread * list event :=
  match exec_stmt e t th with
  | Ok (t', th') => (t', th', [])
  | Raise x => (t, goto Exited th, [EvLog ERROR (MsgTrackingError x)])
  end.

Definition at_boundary (p : pc) : bool :=
  match p with
  | AtWhile | Exited => true
  | _ => false
  end.

(** Steps of one thread, uninterrupted, up to the next test of the loop
    guard or the exit of the loop. *)
Fixpoint run_to_boundary (fuel : nat) (e : Env) (t : Tracker) (th : Thread)
  : Tracker * Thread * list event :=
  match fuel with
  | O => (t, th, [])
  | S fuel' =>
      let '(t1, th1, ev1) := thread_step e t th in
      if at_boundary (at_pc th1) then (t1, th1, ev1)
      else
        let '(t2, th2, ev2) := run_to_boundary fuel' e t1 th1 in
        (t2, th2, ev1 ++ ev2)
  end.

(** One pass of the loop: the guard and, when it holds, the body.  The body
    has 17 statements. *)
Definition iteration (e : Env) (t : Tracker) (th : Thread)
  : Tracker * Thread * list event :=
  run_to_boundary 18 e t th.

(** The loop of one thread run on its own, one [Env] per pass. *)
Fixpoint _tracking_loop (es : list Env) (t : Tracker) (th : Thread)
  : Tracker * Thread * list event :=
  match es with
  | [] => (t, th, [])
  | e :: es' =>
      let '(t1, th1, ev1) := iteration e t th in
      let '(t2, th2, ev2) := _tracking_loop es' t1 th1 in
      (t2, th2, ev1 ++ ev2)
  end.

(** *** The engine and its threads *)

(** The tracker object, the loop threads started so far, and the effects
    seen so far (oldest first). *)
Record World := mkWorld {
  trk : Tracker;
  loops : list Thread;
  effects : list event
}.

(** The threads a list of effects starts. *)
Definition spawned (evs : list event) : list Thread :=
  flat_map (fun ev => match ev with
                      | EvThreadStart => [new_thread]
                      | EvLog _ _ => []
                      end) evs.

Fixpoint set_nth {A : Type} (i : nat) (x : A) (l : list A) : list A :=
  match l, i with
  | [], _ => []
  | _ :: l', O => x :: l'
  | y :: l', S i' => y :: set_nth i' x l'
  end.

(** What can happen next: a caller runs [start_tracking] or [stop_tracking]
    to its end, or loop thread number [i] runs its next statement. *)
Inductive action :=
| CallStart (now : datetime)
| CallStop
| LoopStep (i : nat) (e : Env).

Definition world_step (a : action) (w : World) : World :=
  match a with
  | CallStart now =>
      let '(t', evs) := start_tracking now (trk w) in
      mkWorld t' (loops w ++ spawned evs) (effects w ++ evs)
  | CallStop =>
      let '(t', evs) := stop_tracking (trk w) in
      mkWorld t' (loops w) (effects w ++ evs)
  | LoopStep i e =>
      match nth_error (loops w) i with
      | Some th =>
          let '(t', th', evs) := thread_step e (trk w) th in
          mkWorld t' (set_nth i th' (loops w)) (effects w ++ evs)
      | None => w
      end
  end.

Definition run_world (acts : list action) (w : World) : World :=
  fold_left (fun w a => world_step a w) acts w.

(** The world around a freshly constructed tracker. *)
Definition initial_world (file : Database.t) : World :=
  mkWorld (MasterpieceActivityTracker file) [] [].

(** Loop threads that have not returned. *)
Definition running (th : Thread) : bool :=
  match at_pc th with
  | Exited => false
  | _ => true
  end.

Definition running_loops (w : World) : nat :=
  List.length (filter running (loops w)).

(** The engine seen one operation at a time: a call of [start_tracking], a
    call of [stop_tracking], or one whole pass of a loop thread. *)
Inductive engine_op :=
| OpStart (now : datetime)
| OpStop
| OpIteration (e : Env).

Definition apply_op (t : Tracker) (o : engine_op) : Tracker :=
  match o with
  | OpStart now => fst (start_tracking now t)
  | OpStop => fst (stop_tracking t)
  | OpIteration e => fst (fst (iteration e t new_thread))
  end.

Definition run_ops (os : list engine_op) (t : Tracker) : Tracker :=
  fold_left apply_op os t.

(** The session a pass leaves when its clock reads [ct] and its two noise
    draws are [n] and [n']: the four statements on [self.live_session] in
    the order of the source. *)
Definition sampled (s : LiveSessionData) (ct : datetime) (n n' : R)
  : LiveSessionData :=
  let el := total_seconds (ct - start_time s) in
  let s1 := set_duration_seconds (int_of_seconds (ct - start_time s)) s in
  let s2 := set_focus_scores
              (Deque.append (focus_scores s1)
                 (focus_of (85 + 10 * sin (el / 60)) n)) s1 in
  let s3 := set_productivity_scores
              (Deque.append (productivity_scores s2)
                 (productivity_of (88 + 8 * cos (el / 45)) n')) s2 in
  set_timestamps (Deque.append (timestamps s3) ct) s3.

(** ** Notions of the specification *)

(** [clamp(x, lo, hi)] as the specification uses it: [x] brought back into
    the interval [[lo, hi]]. *)
Definition clamp (x lo hi : R) : R :=
  if Rlt_dec x lo then lo
  else if Rlt_dec hi x then hi
  else x.

(** The alignment of the three sample buffers of a session. *)
Definition aligned (s : LiveSessionData) : Prop :=
  Deque.len (timestamps s) = Deque.len (focus_scores s)
  /\ Deque.len (focus_scores s) = Deque.len (productivity_scores s).

(** The shape the three sample buffers of a session keep: capacity 300,
    never over capacity. *)
Definition buffers_ok (s : LiveSessionData) : Prop :=
  Deque.maxlen (focus_scores s) = 300%nat
  /\ Deque.maxlen (productivity_scores s) = 300%nat
  /\ Deque.maxlen (timestamps s) = 300%nat
  /\ Deque.bounded (focus_scores s)
  /\ Deque.bounded (productivity_scores s)
  /\ Deque.bounded (timestamps s).

(** Every score of a session within its bounds. *)
Definition scores_in_range (s : LiveSessionData) : Prop :=
  Forall (fun x => 20 <= x <= 100)%R (Deque.items (focus_scores s))
  /\ Forall (fun x => 30 <= x <= 100)%R (Deque.items (productivity_scores s)).

(** What holds of the live session of every tracker the engine can reach. *)
Definition session_inv (s : LiveSessionData) : Prop :=
  buffers_ok s /\ aligned s /\ scores_in_range s.

Definition tracker_inv (t : Tracker) : Prop :=
  match live_session t with
  | Some s => session_inv s
  | None => True
  end.

(** The Idle state of the engine: not tracking, no session object. *)
Definition idle (t : Tracker) : Prop :=
  is_tracking t = false /\ live_session t = None.

(** The flag and the session agree: no session object while not tracking. *)
Definition coherent (t : Tracker) : Prop :=
  is_tracking t = false -> live_session t = None.

Definition is_loop_step (a : action) : bool :=
  match a with
  | LoopStep _ _ => true
  | CallStart _ | CallStop => false
  end.

(** The statements of the loop that go through [self.live_session]. *)
Definition dereferences_session (p : pc) : option string :=
  match p with
  | AtElapsed => Some "start_time"%string
  | AtSetDuration => Some "duration_seconds"%string
  | AtAppendFocus => Some "focus_scores"%string
  | AtAppendProd => Some "productivity_scores"%string
  | AtAppendTime => Some "timestamps"%string
  | _ => None
  end.

(** The range of readings of the system clock: from the Unix epoch to
    [datetime.max]. *)
Definition UNIX_EPOCH : datetime := datetime_of 1970 1 1 0 0 0.

Definition clock_reading (now : datetime) : Prop :=
  UNIX_EPOCH <= now <= DATETIME_MAX.


(** Number of sessions in the store. *)
Definition stored_sessions (db : Database.t) : nat :=
  match db with
  | Some tb => List.length (Database.rows tb)
  | None => 0%nat
  end.

(** A column value the query replaces: NULL, zero or the empty string. *)
Definition null_or_zero (v : pyval) : Prop :=
  v = PyNone \/ v = PyInt 0 \/ v = PyFloat 0 \/ v = PyStr "".

(** ** [export_enhanced_data] of [tracker.py] *)

Module Exporter.
Import Database.

(** One dictionary of the list [data]. *)
Record ExportRow := mkExportRow {
  x_timestamp : pyval;
  x_application : pyval;
  x_window_title : pyval;
  x_duration_minutes : pyval;
  x_focus_score : pyval;
  x_productivity_score : pyval;
  x_category : pyval;
  x_screen_time_quality : pyval
}.

(** [v.isoformat()]: none of the values of [pyval] has the method. *)
Definition py_isoformat (v : pyval) : result pyval :=
  Raise (AttributeError "isoformat").

(** [v / 60]: numbers (a bool counts as 0 or 1) divide as floats; text and
    [None] raise TypeError. *)
Definition py_div60 (v : pyval) : result pyval :=
  match v with
  | PyInt z => Ok (PyFloat (IZR z / 60))
  | PyFloat r => Ok (PyFloat (r / 60))
  | PyBool b => Ok (PyFloat (IZR (if b then 1 else 0) / 60))
  | PyNone => Raise (TypeError "unsupported operand type(s) for /")
  | PyStr _ => Raise (TypeError "unsupported operand type(s) for /")
  end.

(** The dictionary built for one session, its values in the order of the
    source. *)
Definition export_row (s : AdvancedFocusSession) : result ExportRow :=
  ts <- getattr s "timestamp" ;;
  iso <- py_isoformat ts ;;
  app <- getattr s "application" ;;
  win <- getattr s "window_title" ;;
  dur <- getattr s "duration_seconds" ;;
  mins <- py_div60 dur ;;
  fs <- getattr s "focus_score" ;;
  ps <- getattr s "productivity_score" ;;
  cat <- getattr s "category" ;;
  q <- getattr s "screen_time_quality" ;;
  Ok (mkExportRow iso app win mins fs ps cat q).

(** The loop [for session in sessions: data.append({...})]. *)
Fixpoint export_rows (sessions : list AdvancedFocusSession)
  : result (list ExportRow) :=
  match sessions with
  | [] => Ok []
  | s :: rest =>
      r <- export_row s ;;
      rs <- export_rows rest ;;
      Ok (r :: rs)
  end.

Section WithClockFormat.

(** [dt.strftime('%Y%m%d_%H%M%S')] *)
Variable strftime : datetime -> string.

Definition export_filename (now : datetime) : string :=
  ("focuspulse_masterpiece_export_" ++ strftime now ++ ".csv")%string.

(** [export_enhanced_data(format_type, days)] on a tracker whose clock reads
    [clock1] inside [get_sessions] and [clock2] when the file is named: the
    string returned and, when a file is written, its name and rows.  The
    [except] clause turns any error into the empty string.  Building the
    DataFrame and writing the file are taken to succeed. *)
Definition export_enhanced_data (db : Database.t) (clock1 clock2 : datetime)
    (format_type : string) (days : Z)
  : string * option (string * list ExportRow) :=
  let sessions := get_sessions db clock1 days in
  match sessions with
  | [] => (""%string, None)
  | _ :: _ =>
      match export_rows sessions with
      | Ok data =>
          let filename := export_filename clock2 in
          (filename, Some (filename, data))
      | Raise _ => (""%string, None)
      end
  end.

End WithClockFormat.

End Exporter.

(** ** [clamp] of [utils.py] *)

Module Utils.

(** [max(min_val, min(max_val, val))] *)
Definition clamp (val min_val max_val : R) : R :=
  py_max min_val (py_min max_val val).

End Utils.

(** ** Further notions *)

(** The clock reading and the two noise draws of a pass, when all three
    calls answer. *)
Definition sample_of (e : Env) : option (datetime * R * R) :=
  match env_now e, env_noise e, env_prod_noise e with
  | Ok ct, Ok n, Ok n' => Some (ct, n, n')
  | _, _, _ => None
  end.




(** The draws of a pass lie where [np.random.randint(5, 15)] and
    [np.random.randint(2, 8)] put them. *)
Definition draws_in_range (e : Env) : Prop :=
  (forall r, env_typing e = Ok r -> 5 <= r < 15)
  /\ (forall r, env_mouse e = Ok r -> 2 <= r < 8).

Definition op_draws_in_range (o : engine_op) : Prop :=
  match o with
  | OpIteration e => draws_in_range e
  | OpStart _ | OpStop => True
  end.

(** Every call of a pass into its environment answers. *)
Definition env_answers (e : Env) : Prop :=
  (exists ct, env_now e = Ok ct)
  /\ (exists n, env_noise e = Ok n)
  /\ (exists n, env_prod_noise e = Ok n)
  /\ (exists r, env_typing e = Ok r)
  /\ (exists r, env_mouse e = Ok r)
  /\ env_sleep e = Ok tt.

(** The row ids of a table: positive, strictly increasing along the table,
    none above the AUTOINCREMENT counter, which is not negative. *)
Definition ids_ok (tb : Database.Table) : Prop :=
  0 <= Database.seq tb
  /\ StronglySorted Z.lt (map Database.col_id (Database.rows tb))
  /\ Forall (fun r => 0 < Database.col_id r <= Database.seq tb) (Database.rows tb).

(** The rows an INSERT of [ps] adds after counter value [n]. *)
Fixpoint rows_of_params (n : Z) (ps : list Database.SessionParams)
  : list Database.Row :=
  match ps with
  | [] => []
  | p :: ps' => Database.row_of_params (n + 1) p :: rows_of_params (n + 1) ps'
  end.

(** * Properties *)

(** ** The sliding window *)

Section DequeFacts.
Context {A : Type}.
Implicit Types (d : Deque.t A) (l vs : list A) (v : A).

Lemma lastn_short n l : (List.length l <= n)%nat -> Deque.lastn n l = l.
Proof.
  intros Hle. unfold Deque.lastn.
  replace (List.length l - n)%nat with 0%nat by lia. reflexivity.
Qed.

Lemma lastn_length n l : List.length (Deque.lastn n l) = Nat.min n (List.length l).
Proof. unfold Deque.lastn. rewrite length_skipn. lia. Qed.

Lemma lastn_suffix n l : exists front, l = front ++ Deque.lastn n l.
Proof.
  exists (firstn (List.length l - n) l). unfold Deque.lastn.
  now rewrite firstn_skipn.
Qed.

Lemma lastn_app_lastn n l vs :
  Deque.lastn n (Deque.lastn n l ++ vs) = Deque.lastn n (l ++ vs).
Proof.
  destruct (Nat.le_gt_cases (List.length l) n) as [Hle | Hgt].
  - now rewrite (lastn_short n l Hle).
  - unfold Deque.lastn.
    rewrite !length_app, length_skipn.
    rewrite (skipn_app (List.length l + List.length vs - n) l vs).
    rewrite (skipn_app _ (skipn (List.length l - n) l) vs).
    rewrite skipn_skipn, length_skipn.
    f_equal; [f_equal | f_equal]; lia.
Qed.

Lemma append_items d v :
  Deque.bounded d ->
  Deque.items (Deque.append d v) = Deque.lastn (Deque.maxlen d) (Deque.items d ++ [v]).
Proof.
  unfold Deque.bounded, Deque.len, Deque.append, Deque.lastn. simpl.
  intros Hb. rewrite length_app. simpl.
  destruct (Nat.ltb_spec (Deque.maxlen d) (List.length (Deque.items d) + 1)) as [Hlt | Hge].
  - replace (List.length (Deque.items d) + 1 - Deque.maxlen d)%nat with 1%nat by lia.
    reflexivity.
  - replace (List.length (Deque.items d) + 1 - Deque.maxlen d)%nat with 0%nat by lia.
    reflexivity.
Qed.

Lemma append_maxlen d v : Deque.maxlen (Deque.append d v) = Deque.maxlen d.
Proof. reflexivity. Qed.

Lemma append_bounded d v : Deque.bounded d -> Deque.bounded (Deque.append d v).
Proof.
  intros Hb. unfold Deque.bounded, Deque.len.
  rewrite append_items by assumption.
  rewrite lastn_length, append_maxlen. lia.
Qed.

Lemma append_len d v :
  Deque.bounded d ->
  Deque.len (Deque.append d v) = Nat.min (Deque.maxlen d) (S (Deque.len d)).
Proof.
  intros Hb. unfold Deque.len. rewrite append_items by assumption.
  rewrite lastn_length, length_app. simpl. lia.
Qed.

Lemma new_bounded n : Deque.bounded (@Deque.new A n).
Proof. unfold Deque.bounded, Deque.len. simpl. lia. Qed.

Lemma extend_maxlen vs : forall d, Deque.maxlen (Deque.extend d vs) = Deque.maxlen d.
Proof.
  induction vs as [| v vs IH]; intros d; simpl; [reflexivity |].
  now rewrite IH.
Qed.

Lemma extend_bounded vs : forall d, Deque.bounded d -> Deque.bounded (Deque.extend d vs).
Proof.
  induction vs as [| v vs IH]; intros d Hb; simpl; [assumption |].
  apply IH, append_bounded, Hb.
Qed.

Lemma extend_items vs : forall d,
  Deque.bounded d ->
  Deque.items (Deque.extend d vs) = Deque.lastn (Deque.maxlen d) (Deque.items d ++ vs).
Proof.
  induction vs as [| v vs IH]; intros d Hb; simpl.
  - rewrite app_nil_r. symmetry. apply lastn_short, Hb.
  - rewrite IH by (apply append_bounded, Hb).
    rewrite append_maxlen, append_items by assumption.
    rewrite lastn_app_lastn, <- app_assoc. reflexivity.
Qed.

End DequeFacts.

(** C1. A buffer of capacity [N] that has received [M > N] values holds the
    last [N] of them, oldest first: the appended sequence is some evicted
    prefix followed by the buffer's content, which has length [N].  No
    prefix of the appends ever leaves more than [N] elements.  [append] is a
    total function, so no append fails.  The four buffers of a new live
    session are such deques, of capacity 300 (focus, productivity,
    timestamps) and 60 (activity events). *)
Theorem C1_sliding_window_keeps_last_N :
  forall (A : Type) (N : nat) (vs : list A),
    (N < List.length vs)%nat ->
    let d := Deque.extend (Deque.new N) vs in
    (exists evicted, vs = evicted ++ Deque.items d)
    /\ Deque.len d = N
    /\ Deque.items d = skipn (List.length vs - N) vs
    /\ (forall k, (Deque.len (Deque.extend (Deque.new N) (firstn k vs)) <= N)%nat)
    /\ (forall st app win,
          let s := new_LiveSessionData st app win in
          focus_scores s = Deque.new 300
          /\ productivity_scores s = Deque.new 300
          /\ timestamps s = Deque.new 300
          /\ activity_events s = Deque.new 60).
Proof.
  intros A N vs HM d.
  assert (Hitems : Deque.items d = Deque.lastn N vs).
  { unfold d. rewrite extend_items by apply new_bounded. reflexivity. }
  repeat split.
  - rewrite Hitems. apply lastn_suffix.
  - unfold Deque.len. rewrite Hitems, lastn_length. lia.
  - exact Hitems.
  - intros k.
    pose proof (extend_bounded (firstn k vs) (Deque.new N) (new_bounded N)) as Hb.
    unfold Deque.bounded in Hb. now rewrite extend_maxlen in Hb.
Qed.

Lemma C1_witness :
  (2 < List.length [1; 2; 3; 4; 5])%nat
  /\ Deque.items (Deque.extend (Deque.new 2) [1; 2; 3; 4; 5]) = [4; 5].
Proof.
  split; [simpl; lia |].
  exact (proj1 (proj2 (proj2
    (C1_sliding_window_keeps_last_N Z 2%nat [1; 2; 3; 4; 5] ltac:(simpl; lia))))).
Defined.

(** ** The sample of one pass *)

Lemma py_clamp (x lo hi : R) :
  (lo <= hi)%R -> py_max lo (py_min hi x) = clamp x lo hi.
Proof.
  intros Hle. unfold py_max, py_min, clamp.
  destruct (Rlt_dec x hi) as [Hxh | Hxh];
    destruct (Rlt_dec x lo) as [Hxl | Hxl];
    destruct (Rlt_dec hi x) as [Hhx | Hhx];
    repeat match goal with
           | |- context [Rgt_dec ?a ?b] => destruct (Rgt_dec a b)
           end;
    try reflexivity; unfold Rgt in *; lra.
Qed.

Lemma clamp_range (x lo hi : R) :
  (lo <= hi)%R -> (lo <= clamp x lo hi <= hi)%R.
Proof.
  intros Hle. unfold clamp.
  destruct (Rlt_dec x lo); [lra |].
  destruct (Rlt_dec hi x); lra.
Qed.

Lemma focus_of_clamp base n : focus_of base n = clamp (base + n) 20 100.
Proof. apply py_clamp. lra. Qed.

Lemma productivity_of_clamp base n : productivity_of base n = clamp (base + n) 30 100.
Proof. apply py_clamp. lra. Qed.

Lemma focus_of_range base n : (20 <= focus_of base n <= 100)%R.
Proof. rewrite focus_of_clamp. apply clamp_range. lra. Qed.

Lemma productivity_of_range base n : (30 <= productivity_of base n <= 100)%R.
Proof. rewrite productivity_of_clamp. apply clamp_range. lra. Qed.

(** A pass whose clock and noise draws succeed leaves the sampled session,
    whatever the later calls of the pass answer. *)
Lemma iteration_samples e t th s ct n n' :
  at_pc th = AtWhile ->
  is_tracking t = true ->
  live_session t = Some s ->
  env_now e = Ok ct ->
  env_noise e = Ok n ->
  env_prod_noise e = Ok n' ->
  live_session (fst (fst (iteration e t th))) = Some (sampled s ct n n').
Proof.
  destruct t as [db cs ls tr sst ty mo ap], th as [p l], e as [en eno epn ety emo esl].
  simpl. intros -> -> -> -> -> ->.
  unfold iteration, sampled.
  cbn -[Z.sub Z.add in_first_second_of_ten int_of_seconds total_seconds].
  destruct (in_first_second_of_ten (ct - start_time s));
    cbn -[Z.sub Z.add in_first_second_of_ten int_of_seconds total_seconds];
    destruct ety, emo, esl; reflexivity.
Qed.

Ltac crunch_pass :=
  cbn -[Z.sub Z.add in_first_second_of_ten int_of_seconds total_seconds].

(** What a pass can do to the live session: nothing, or one sample. *)
Lemma iteration_live_session e t th :
  at_pc th = AtWhile ->
  live_session (fst (fst (iteration e t th))) = live_session t
  \/ exists s ct n n',
       is_tracking t = true /\ live_session t = Some s
       /\ env_now e = Ok ct /\ env_noise e = Ok n /\ env_prod_noise e = Ok n'
       /\ live_session (fst (fst (iteration e t th))) = Some (sampled s ct n n').
Proof.
  intros Hpc.
  destruct (is_tracking t) eqn:Htr, (live_session t) as [s |] eqn:Hls,
           (env_now e) as [ct |] eqn:Hnow, (env_noise e) as [n |] eqn:Hn,
           (env_prod_noise e) as [n' |] eqn:Hn';
    try (right; exists s, ct, n, n'; repeat split; try reflexivity;
         now apply iteration_samples);
    left;
    destruct t as [db cs ls tr sst ty mo ap], th as [p l],
             e as [en eno epn ety emo esl];
    simpl in *; subst; unfold iteration; crunch_pass;
    try reflexivity; destruct esl; reflexivity.
Qed.

(** A pass never touches the flag, the database or the start time. *)
Lemma iteration_frame e t th :
  at_pc th = AtWhile ->
  let t' := fst (fst (iteration e t th)) in
  is_tracking t' = is_tracking t
  /\ db_manager t' = db_manager t
  /\ session_start_time t' = session_start_time t
  /\ app_switches t' = app_switches t.
Proof.
  intros Hpc.
  destruct t as [db cs ls tr sst ty mo ap], th as [p l],
           e as [en eno epn ety emo esl].
  simpl in Hpc; subst p. unfold iteration.
  destruct tr; [| crunch_pass; repeat split].
  destruct ls as [s |]; [| crunch_pass; destruct esl; crunch_pass; repeat split].
  destruct en as [ct |]; [| crunch_pass; repeat split].
  destruct eno as [n |]; [| crunch_pass; repeat split].
  destruct epn as [n' |]; [| crunch_pass; repeat split].
  crunch_pass.
  destruct (in_first_second_of_ten (ct - start_time s)); crunch_pass;
    destruct ety, emo, esl; crunch_pass; repeat split.
Qed.

(** A pass ends at the loop guard or with the loop left: 18 steps are enough. *)
Lemma iteration_reaches_boundary e t th :
  at_pc th = AtWhile ->
  at_boundary (at_pc (snd (fst (iteration e t th)))) = true.
Proof.
  intros Hpc.
  destruct t as [db cs ls tr sst ty mo ap], th as [p l],
           e as [en eno epn ety emo esl].
  simpl in Hpc; subst p. unfold iteration.
  destruct tr; [| reflexivity].
  destruct ls as [s |]; [| crunch_pass; destruct esl; reflexivity].
  destruct en as [ct |]; [| reflexivity].
  destruct eno as [n |]; [| reflexivity].
  destruct epn as [n' |]; [| reflexivity].
  crunch_pass.
  destruct (in_first_second_of_ten (ct - start_time s)); crunch_pass;
    destruct ety, emo, esl; reflexivity.
Qed.

(** ** Invariants of the live session *)

Lemma Forall_lastn {A : Type} (P : A -> Prop) n (l : list A) :
  Forall P l -> Forall P (Deque.lastn n l).
Proof.
  intros HP. destruct (lastn_suffix n l) as [front Hl].
  rewrite Hl in HP. now apply Forall_app in HP.
Qed.

Lemma append_Forall {A : Type} (P : A -> Prop) (d : Deque.t A) v :
  Deque.bounded d -> Forall P (Deque.items d) -> P v ->
  Forall P (Deque.items (Deque.append d v)).
Proof.
  intros Hb Hd Hv. rewrite append_items by assumption.
  apply Forall_lastn, Forall_app. split; [assumption | now constructor].
Qed.

Lemma new_session_inv now app win : session_inv (new_LiveSessionData now app win).
Proof.
  unfold session_inv, buffers_ok, aligned, scores_in_range, Deque.bounded,
    Deque.len; simpl.
  repeat split; solve [apply Forall_nil | lia].
Qed.

Lemma sampled_inv s ct n n' : session_inv s -> session_inv (sampled s ct n n').
Proof.
  intros ((Mf & Mp & Mt & Bf & Bp & Bt) & (Atf & Afp) & (Rf & Rp)).
  unfold session_inv, buffers_ok, aligned, scores_in_range, sampled.
  cbn [focus_scores productivity_scores timestamps set_timestamps
       set_productivity_scores set_focus_scores set_duration_seconds].
  rewrite !append_maxlen, !append_len by assumption.
  rewrite Mf, Mp, Mt, Atf, Afp.
  repeat split; try reflexivity; try (apply append_bounded; assumption).
  - apply append_Forall; [assumption .. | apply focus_of_range].
  - apply append_Forall; [assumption .. | apply productivity_of_range].
Qed.

Lemma start_tracking_inv now t : tracker_inv t -> tracker_inv (fst (start_tracking now t)).
Proof.
  unfold start_tracking, tracker_inv.
  destruct (is_tracking t); simpl; [trivial |].
  intros _. apply new_session_inv.
Qed.

Lemma stop_tracking_inv t : tracker_inv t -> tracker_inv (fst (stop_tracking t)).
Proof.
  unfold stop_tracking, tracker_inv.
  destruct (is_tracking t); simpl; trivial.
Qed.

Lemma iteration_inv e t th :
  at_pc th = AtWhile -> tracker_inv t -> tracker_inv (fst (fst (iteration e t th))).
Proof.
  intros Hpc Hinv. unfold tracker_inv in *.
  destruct (iteration_live_session e t th Hpc)
    as [Heq | (s & ct & n & n' & _ & Hs & _ & _ & _ & Heq)]; rewrite Heq.
  - exact Hinv.
  - rewrite Hs in Hinv. now apply sampled_inv.
Qed.

Lemma apply_op_inv t o : tracker_inv t -> tracker_inv (apply_op t o).
Proof.
  destruct o as [now | | e]; simpl.
  - apply start_tracking_inv.
  - apply stop_tracking_inv.
  - now apply iteration_inv.
Qed.

Lemma run_ops_inv os : forall t, tracker_inv t -> tracker_inv (run_ops os t).
Proof.
  induction os as [| o os IH]; intros t Hinv; simpl; [assumption |].
  apply IH, apply_op_inv, Hinv.
Qed.

Lemma new_tracker_inv file : tracker_inv (MasterpieceActivityTracker file).
Proof. exact I. Qed.

Lemma reachable_inv file os s :
  live_session (run_ops os (MasterpieceActivityTracker file)) = Some s ->
  session_inv s.
Proof.
  intros Hs. pose proof (run_ops_inv os _ (new_tracker_inv file)) as Hinv.
  unfold tracker_inv in Hinv. now rewrite Hs in Hinv.
Qed.

(** C2. A pass of the sampling loop whose clock reads [ct] and whose noise
    source yields [n] and [n'] appends, with [e] the seconds elapsed since
    the session's start, the focus score [clamp(85 + 10 sin(e/60) + n, 20, 100)]
    and the productivity score [clamp(88 + 8 cos(e/45) + n', 30, 100)].
    Hence in every session the engine can reach from a new tracker, by any
    sequence of starts, stops and loop passes, every buffered focus score
    lies in [20,100] and every buffered productivity score in [30,100]. *)
Theorem C2_sample_is_clamped_and_in_range :
  (forall e t th s ct n n',
      at_pc th = AtWhile ->
      is_tracking t = true ->
      live_session t = Some s ->
      env_now e = Ok ct ->
      env_noise e = Ok n ->
      env_prod_noise e = Ok n' ->
      let el := total_seconds (ct - start_time s) in
      exists s',
        live_session (fst (fst (iteration e t th))) = Some s'
        /\ focus_scores s' =
             Deque.append (focus_scores s)
               (clamp (85 + 10 * sin (el / 60) + n) 20 100)
        /\ productivity_scores s' =
             Deque.append (productivity_scores s)
               (clamp (88 + 8 * cos (el / 45) + n') 30 100))
  /\ (forall file os s,
        live_session (run_ops os (MasterpieceActivityTracker file)) = Some s ->
        Forall (fun x => 20 <= x <= 100)%R (Deque.items (focus_scores s))
        /\ Forall (fun x => 30 <= x <= 100)%R (Deque.items (productivity_scores s))).
Proof.
  split.
  - intros e t th s ct n n' Hpc Htr Hs Hnow Hn Hn' el.
    exists (sampled s ct n n'). split.
    + now apply iteration_samples.
    + unfold sampled; simpl. fold el.
      now rewrite focus_of_clamp, productivity_of_clamp.
  - intros file os s Hs. apply (reachable_inv file os s Hs).
Qed.

Lemma C2_witness :
  let t := fst (start_tracking 0 (MasterpieceActivityTracker None)) in
  let e := mkEnv (Ok 30000000) (Ok 1%R) (Ok 2%R) (Ok 7) (Ok 3) (Ok tt) in
  (exists s',
      live_session (fst (fst (iteration e t new_thread))) = Some s'
      /\ focus_scores s' =
           Deque.append (Deque.new 300)
             (clamp (85 + 10 * sin (total_seconds 30000000 / 60) + 1) 20 100))
  /\ (forall s,
        live_session (run_ops [OpStart 0; OpIteration e]
                        (MasterpieceActivityTracker None)) = Some s ->
        Forall (fun x => 20 <= x <= 100)%R (Deque.items (focus_scores s))).
Proof.
  intros t e. split.
  - destruct (proj1 C2_sample_is_clamped_and_in_range e t new_thread
                (new_LiveSessionData 0 "FocusPulse Elite"
                   "Productivity Tracking Session")
                30000000 1%R 2%R
                eq_refl eq_refl eq_refl eq_refl eq_refl eq_refl)
      as (s' & Hs' & Hf & _).
    exists s'. split; [exact Hs' | exact Hf].
  - intros s Hs.
    exact (proj1 (proj2 C2_sample_is_clamped_and_in_range None
                    [OpStart 0; OpIteration e] s Hs)).
Defined.

(** C8, as the code has it.  From a new tracker, after any sequence of
    starts, stops and whole passes of the sampling loop, each pass running
    from its guard to the next with no start, stop or other pass in between,
    a live session, when there is one, has timestamp, focus and productivity
    buffers of one and the same length.  (The loop takes no lock; what a
    start or stop inside a pass does to the lengths is the run given
    against C8 below.) *)
Theorem C8_buffers_stay_aligned :
  forall file os s,
    get_live_session_data (run_ops os (MasterpieceActivityTracker file)) = Some s ->
    Deque.len (timestamps s) = Deque.len (focus_scores s)
    /\ Deque.len (focus_scores s) = Deque.len (productivity_scores s).
Proof.
  intros file os s Hs. apply (reachable_inv file os s Hs).
Qed.

Lemma C8_witness :
  let e := mkEnv (Ok 30000000) (Ok 1%R) (Ok 2%R) (Ok 7) (Ok 3) (Ok tt) in
  let s := sampled (sampled (new_LiveSessionData 0 "FocusPulse Elite"
                               "Productivity Tracking Session")
                      30000000 1 2) 30000000 1 2 in
  Deque.len (timestamps s) = 2%nat
  /\ Deque.len (timestamps s) = Deque.len (focus_scores s)
  /\ Deque.len (focus_scores s) = Deque.len (productivity_scores s).
Proof.
  intros e s. split; [reflexivity |].
  exact (C8_buffers_stay_aligned None [OpStart 0; OpIteration e; OpIteration e]
           s eq_refl).
Defined.

(** The run against C8.  From a new tracker: start at time 0; the loop
    thread runs twelve statements, up to and including the append to the
    focus buffer; [stop_tracking] and then [start_tracking] run, which
    replaces the session by a new, empty one and starts a second thread; the
    first thread runs the six statements left of its pass, appending its
    productivity score and its timestamp to the new session.  Both threads
    are then at the loop guard, and the live session holds one timestamp, no
    focus score and one productivity score. *)
Lemma C8_counterexample :
  let e := mkEnv (Ok 0) (Ok 0%R) (Ok 0%R) (Ok 7) (Ok 3) (Ok tt) in
  let w := run_world (CallStart 0 :: repeat (LoopStep 0 e) 12
                      ++ [CallStop; CallStart 0] ++ repeat (LoopStep 0 e) 6)
             (initial_world None) in
  map at_pc (loops w) = [AtWhile; AtWhile]
  /\ is_tracking (trk w) = true
  /\ option_map (fun s => Deque.len (timestamps s)) (get_live_session_data (trk w))
     = Some 1%nat
  /\ option_map (fun s => Deque.len (focus_scores s)) (get_live_session_data (trk w))
     = Some 0%nat
  /\ option_map (fun s => Deque.len (productivity_scores s))
       (get_live_session_data (trk w)) = Some 1%nat
  /\ ~ (exists s, get_live_session_data (trk w) = Some s
                  /\ Deque.len (timestamps s) = Deque.len (focus_scores s)).
Proof.
  intros e w.
  split; [reflexivity |]. split; [reflexivity |].
  split; [reflexivity |]. split; [reflexivity |]. split; [reflexivity |].
  intros (s & Hs & Hlen).
  assert (Ht : option_map (fun s => Deque.len (timestamps s))
                 (get_live_session_data (trk w)) = Some 1%nat) by reflexivity.
  assert (Hf : option_map (fun s => Deque.len (focus_scores s))
                 (get_live_session_data (trk w)) = Some 0%nat) by reflexivity.
  rewrite Hs in Ht, Hf. simpl in Ht, Hf.
  injection Ht as Ht. injection Hf as Hf. rewrite Ht, Hf in Hlen.
  discriminate Hlen.
Qed.

(** ** Starting twice *)

(** C6. A call of [start_tracking] on an engine that is tracking returns at
    once: the tracker (flag, live session, the three counters, the session
    start time) is left as it was, nothing is logged and no thread is
    started, so the set of sampling loops is the same. *)
Theorem C6_start_while_tracking_is_noop :
  forall now w,
    is_tracking (trk w) = true ->
    let w' := world_step (CallStart now) w in
    start_tracking now (trk w) = (trk w, [])
    /\ w' = w
    /\ is_tracking (trk w') = true
    /\ live_session (trk w') = live_session (trk w)
    /\ typing_events (trk w') = typing_events (trk w)
    /\ mouse_events (trk w') = mouse_events (trk w)
    /\ app_switches (trk w') = app_switches (trk w)
    /\ session_start_time (trk w') = session_start_time (trk w)
    /\ loops w' = loops w
    /\ running_loops w' = running_loops w.
Proof.
  intros now w Htr w'.
  assert (Hstart : start_tracking now (trk w) = (trk w, [])).
  { unfold start_tracking. now rewrite Htr. }
  assert (Hw : w' = w).
  { unfold w', world_step. rewrite Hstart. simpl.
    rewrite !app_nil_r. now destruct w. }
  rewrite Hw. repeat split; assumption.
Qed.

Lemma C6_witness :
  let w := world_step (CallStart 0) (initial_world None) in
  List.length (loops w) = 1%nat
  /\ world_step (CallStart 5) w = w.
Proof.
  intros w. split; [reflexivity |].
  exact (proj1 (proj2 (C6_start_while_tracking_is_noop 5 w eq_refl))).
Defined.

(** ** Steps of a loop thread *)

Ltac destruct_scrutinee :=
  match goal with
  | |- context [match ?x with _ => _ end] =>
      lazymatch x with
      | context [match _ with _ => _ end] => fail
      | _ => destruct x; simpl
      end
  end.

Ltac step_cases th :=
  unfold thread_step, exec_stmt, the_live_session, bind;
  destruct th as [[] ?]; simpl; repeat destruct_scrutinee.

Lemma thread_step_flag e t th :
  is_tracking (fst (fst (thread_step e t th))) = is_tracking t.
Proof. step_cases th; reflexivity. Qed.

Lemma thread_step_db e t th :
  db_manager (fst (fst (thread_step e t th))) = db_manager t.
Proof. step_cases th; reflexivity. Qed.

Lemma thread_step_no_session e t th :
  live_session t = None ->
  live_session (fst (fst (thread_step e t th))) = None.
Proof.
  intros H. unfold thread_step, exec_stmt, the_live_session, bind.
  rewrite H. destruct th as [[] ?]; simpl; repeat destruct_scrutinee;
    assumption.
Qed.

Lemma thread_step_coherent e t th :
  coherent t -> coherent (fst (fst (thread_step e t th))).
Proof.
  unfold coherent. rewrite thread_step_flag. intros Hc Hf.
  apply thread_step_no_session, Hc, Hf.
Qed.

(** A statement that raises leaves the tracker alone, ends the loop and
    logs the error. *)
Lemma thread_step_raise e t th x :
  exec_stmt e t th = Raise x ->
  thread_step e t th = (t, goto Exited th, [EvLog ERROR (MsgTrackingError x)]).
Proof. unfold thread_step. now intros ->. Qed.

(** Only a running thread can raise. *)
Lemma exec_stmt_raise_running e t th x :
  exec_stmt e t th = Raise x -> running th = true.
Proof.
  unfold running. destruct th as [[] l]; simpl; try reflexivity. discriminate.
Qed.

(** A thread that has left the loop stays there and does nothing. *)
Lemma thread_step_exited e t th :
  at_pc th = Exited -> thread_step e t th = (t, th, []).
Proof.
  destruct th as [p l]. simpl. intros ->. reflexivity.
Qed.

(** The loop guard, tested on an engine that is not tracking, leaves the
    loop without any effect. *)
Lemma thread_step_guard_false e t th :
  at_pc th = AtWhile -> is_tracking t = false ->
  thread_step e t th = (t, goto Exited th, []).
Proof.
  destruct th as [p l]. simpl. intros -> Hf.
  unfold thread_step, exec_stmt. simpl. now rewrite Hf.
Qed.

(** A statement that goes through [self.live_session] raises when the
    session has been released. *)
Lemma thread_step_released e t th attr :
  dereferences_session (at_pc th) = Some attr ->
  live_session t = None ->
  thread_step e t th =
    (t, goto Exited th, [EvLog ERROR (MsgTrackingError (AttributeError attr))]).
Proof.
  destruct th as [p l]. simpl. intros Hd Hn.
  apply thread_step_raise. unfold exec_stmt, the_live_session. simpl.
  destruct p; simpl in Hd; try discriminate Hd;
    injection Hd as <-; rewrite Hn; reflexivity.
Qed.

(** ** Calls of the engine *)

Lemma start_tracking_coherent now t : coherent t -> coherent (fst (start_tracking now t)).
Proof.
  unfold coherent, start_tracking. destruct (is_tracking t) eqn:Htr; simpl.
  - intros _ Hf. congruence.
  - intros _ Hf. discriminate Hf.
Qed.

Lemma stop_tracking_coherent t : coherent t -> coherent (fst (stop_tracking t)).
Proof.
  unfold coherent, stop_tracking. destruct (is_tracking t) eqn:Htr; simpl.
  - reflexivity.
  - intros Hc _. now apply Hc.
Qed.

Lemma stop_tracking_idle t : coherent t -> idle (fst (stop_tracking t)).
Proof.
  unfold coherent, idle, stop_tracking. destruct (is_tracking t) eqn:Htr; simpl.
  - intros _. split; reflexivity.
  - intros Hc. split; [assumption | now apply Hc].
Qed.

Lemma stop_tracking_releases t :
  is_tracking t = true -> idle (fst (stop_tracking t)).
Proof.
  unfold idle, stop_tracking. intros ->. simpl. split; reflexivity.
Qed.

(** ** Worlds *)

Lemma nth_error_set_nth {A : Type} (l : list A) : forall i x y,
  nth_error l i = Some y -> nth_error (set_nth i x l) i = Some x.
Proof.
  induction l as [| a l IH]; intros [| i] x y H; simpl in *;
    try discriminate; [reflexivity | eauto].
Qed.

Lemma running_set_nth_exit (l : list Thread) : forall i th th',
  nth_error l i = Some th -> running th = true -> running th' = false ->
  S (List.length (filter running (set_nth i th' l))) = List.length (filter running l).
Proof.
  induction l as [| a l IH]; intros [| i] th th' Hn Hr Hr'; simpl in *;
    try discriminate.
  - injection Hn as ->. now rewrite Hr, Hr'.
  - destruct (running a); simpl; [f_equal |]; eauto.
Qed.

Lemma world_step_coherent a w : coherent (trk w) -> coherent (trk (world_step a w)).
Proof.
  intros Hc. destruct a as [now | | i e]; simpl.
  - pose proof (start_tracking_coherent now (trk w) Hc) as H.
    destruct (start_tracking now (trk w)) as [t' evs]. exact H.
  - pose proof (stop_tracking_coherent (trk w) Hc) as H.
    destruct (stop_tracking (trk w)) as [t' evs]. exact H.
  - destruct (nth_error (loops w) i) as [th |]; [| exact Hc].
    pose proof (thread_step_coherent e (trk w) th Hc) as H.
    destruct (thread_step e (trk w) th) as [[t' th'] evs]. exact H.
Qed.

Lemma run_world_coherent acts : forall w,
  coherent (trk w) -> coherent (trk (run_world acts w)).
Proof.
  induction acts as [| a acts IH]; intros w Hc; simpl; [assumption |].
  apply IH, world_step_coherent, Hc.
Qed.

Lemma reachable_coherent file acts :
  coherent (trk (run_world acts (initial_world file))).
Proof. apply run_world_coherent. intros _. reflexivity. Qed.

Lemma trk_call_stop w : trk (world_step CallStop w) = fst (stop_tracking (trk w)).
Proof. simpl. now destruct (stop_tracking (trk w)). Qed.

Lemma world_loop_step w i e th :
  nth_error (loops w) i = Some th ->
  world_step (LoopStep i e) w =
    mkWorld (fst (fst (thread_step e (trk w) th)))
            (set_nth i (snd (fst (thread_step e (trk w) th))) (loops w))
            (effects w ++ snd (thread_step e (trk w) th)).
Proof.
  intros Hn. simpl. rewrite Hn.
  now destruct (thread_step e (trk w) th) as [[t' th'] evs].
Qed.

(** ** Errors in the loop *)

(** C3. In any state the engine can reach, when the statement a loop thread
    runs next raises, the error is logged under "Tracking error", the thread
    leaves the loop (one running loop fewer, and an exited thread takes no
    further effect), and the tracker is as the statement found it: nothing
    propagates to a caller.  In every reachable state, so also after a loop
    has left for whatever reason, a call of [stop_tracking] brings the
    engine to Idle: not tracking, no session. *)
Theorem C3_loop_error_is_contained :
  forall file acts,
    let w := run_world acts (initial_world file) in
    idle (trk (world_step CallStop w))
    /\ forall i th e x,
        nth_error (loops w) i = Some th ->
        exec_stmt e (trk w) th = Raise x ->
        let w' := world_step (LoopStep i e) w in
        effects w' = effects w ++ [EvLog ERROR (MsgTrackingError x)]
        /\ trk w' = trk w
        /\ nth_error (loops w') i = Some (goto Exited th)
        /\ S (running_loops w') = running_loops w
        /\ (forall e', trk (world_step (LoopStep i e') w') = trk w'
                       /\ effects (world_step (LoopStep i e') w') = effects w')
        /\ idle (trk (world_step CallStop w')).
Proof.
  intros file acts w.
  assert (Hc : coherent (trk w)) by apply reachable_coherent.
  split.
  { rewrite trk_call_stop. now apply stop_tracking_idle. }
  intros i th e x Hn Hx w'.
  assert (Hw' : w' = mkWorld (trk w) (set_nth i (goto Exited th) (loops w))
                       (effects w ++ [EvLog ERROR (MsgTrackingError x)])).
  { unfold w'. rewrite (world_loop_step w i e th Hn).
    now rewrite (thread_step_raise e (trk w) th x Hx). }
  assert (Hi : nth_error (loops w') i = Some (goto Exited th)).
  { rewrite Hw'. simpl. now apply nth_error_set_nth with (y := th). }
  repeat split.
  - now rewrite Hw'.
  - now rewrite Hw'.
  - exact Hi.
  - rewrite Hw'. unfold running_loops. simpl.
    apply running_set_nth_exit with (th := th);
      [assumption | now apply exec_stmt_raise_running with e (trk w) x | reflexivity].
  - rewrite (world_loop_step w' i e' _ Hi).
    now rewrite thread_step_exited by reflexivity.
  - rewrite (world_loop_step w' i e' _ Hi).
    rewrite thread_step_exited by reflexivity. simpl. apply app_nil_r.
  - rewrite trk_call_stop, Hw'. simpl. now apply stop_tracking_idle.
  - rewrite trk_call_stop, Hw'. simpl. now apply stop_tracking_idle.
Qed.

Lemma C3_witness :
  let e := mkEnv (Ok 0) (Raise (RuntimeError "noise source failed")) (Ok 0%R)
                 (Ok 7) (Ok 3) (Ok tt) in
  let w := run_world (CallStart 0 :: repeat (LoopStep 0 e) 5) (initial_world None) in
  let w' := world_step (LoopStep 0 e) w in
  is_tracking (trk w') = true
  /\ effects w' = effects w
                  ++ [EvLog ERROR (MsgTrackingError (RuntimeError "noise source failed"))]
  /\ S (running_loops w') = running_loops w
  /\ idle (trk (world_step CallStop w')).
Proof.
  intros e w w'.
  pose proof (proj2 (C3_loop_error_is_contained None
                       (CallStart 0 :: repeat (LoopStep 0 e) 5))
                0%nat (mkThread AtNoise
                         (mkLocals 0 0 (85 + 10 * sin (total_seconds 0 / 60)) 0 0 0 0 0))
                e (RuntimeError "noise source failed") eq_refl eq_refl)
    as (He & _ & _ & Hr & _ & Hi).
  split; [reflexivity |].
  split; [exact He |].
  split; [exact Hr | exact Hi].
Defined.

(** ** Stopping *)

Lemma avg_focus_cases s :
  (Deque.items (focus_scores s) = [] -> avg_focus s = 85%R)
  /\ (Deque.items (focus_scores s) <> [] ->
      avg_focus s =
        (fold_right Rplus 0 (Deque.items (focus_scores s))
         / INR (Deque.len (focus_scores s)))%R).
Proof.
  unfold avg_focus, Deque.truthy, Deque.len, Deque.to_list, np_mean.
  destruct (Deque.items (focus_scores s)); simpl; split; intros H;
    solve [reflexivity | discriminate H | now contradiction H].
Qed.

Lemma avg_productivity_cases s :
  (Deque.items (productivity_scores s) = [] -> avg_productivity s = 88%R)
  /\ (Deque.items (productivity_scores s) <> [] ->
      avg_productivity s =
        (fold_right Rplus 0 (Deque.items (productivity_scores s))
         / INR (Deque.len (productivity_scores s)))%R).
Proof.
  unfold avg_productivity, Deque.truthy, Deque.len, Deque.to_list, np_mean.
  destruct (Deque.items (productivity_scores s)); simpl; split; intros H;
    solve [reflexivity | discriminate H | now contradiction H].
Qed.

(** C4, as the code has it.  When [stop_tracking] is called on a tracking
    engine whose live session has [duration_seconds > 10], the focus summary
    is the arithmetic mean of the buffered focus scores (85 when the buffer
    is empty) and the productivity summary the mean of the buffered
    productivity scores (88 when empty); the duration and the focus mean are
    written once to the log, followed by the "stopped" record; the database
    of the persistence layer is left as it was (the call that would save the
    session is commented out in the source), and the engine is Idle. *)
Theorem C4_stop_summarises_and_logs :
  forall t s,
    is_tracking t = true ->
    live_session t = Some s ->
    duration_seconds s > 10 ->
    let t' := fst (stop_tracking t) in
    snd (stop_tracking t) =
      [EvLog INFO (MsgCompleted (duration_seconds s) (avg_focus s));
       EvLog INFO MsgStopped]
    /\ (Deque.items (focus_scores s) = [] -> avg_focus s = 85%R)
    /\ (Deque.items (focus_scores s) <> [] ->
        avg_focus s =
          (fold_right Rplus 0 (Deque.items (focus_scores s))
           / INR (Deque.len (focus_scores s)))%R)
    /\ (Deque.items (productivity_scores s) = [] -> avg_productivity s = 88%R)
    /\ (Deque.items (productivity_scores s) <> [] ->
        avg_productivity s =
          (fold_right Rplus 0 (Deque.items (productivity_scores s))
           / INR (Deque.len (productivity_scores s)))%R)
    /\ db_manager t' = db_manager t
    /\ stored_sessions (db_manager t') = stored_sessions (db_manager t)
    /\ idle t'.
Proof.
  intros t s Htr Hs Hd t'.
  assert (Hgt : (duration_seconds s >? 10) = true) by (apply Z.gtb_lt; lia).
  split.
  { unfold stop_tracking, finalize_session. rewrite Htr. simpl.
    rewrite Hs, Hgt. reflexivity. }
  destruct (avg_focus_cases s) as [Hf0 Hf1].
  destruct (avg_productivity_cases s) as [Hp0 Hp1].
  assert (Hdb : db_manager t' = db_manager t).
  { unfold t', stop_tracking. now rewrite Htr. }
  repeat split; try assumption.
  - now rewrite Hdb.
  - apply (stop_tracking_releases t Htr).
  - apply (stop_tracking_releases t Htr).
Qed.

Lemma C4_witness :
  let e := mkEnv (Ok 11000000) (Ok 1%R) (Ok 2%R) (Ok 7) (Ok 3) (Ok tt) in
  let t := run_ops [OpStart 0; OpIteration e] (MasterpieceActivityTracker None) in
  is_tracking t = true
  /\ stored_sessions (db_manager (fst (stop_tracking t))) = 5%nat
  /\ idle (fst (stop_tracking t)).
Proof.
  intros e t.
  pose proof (C4_stop_summarises_and_logs t
                (sampled (new_LiveSessionData 0 "FocusPulse Elite"
                            "Productivity Tracking Session") 11000000 1 2)
                eq_refl eq_refl eq_refl)
    as (_ & _ & _ & _ & _ & _ & Hn & Hi).
  split; [reflexivity |].
  split; [rewrite Hn; reflexivity | exact Hi].
Defined.

(** The hand-over C4 speaks of would add one session to the store.  From a
    new tracker: start at time 0, one pass of the loop at 11 s (so that
    [duration_seconds] is 11), then stop.  The store holds its five seeded
    sessions before the call and the same five after it. *)
Lemma C4_counterexample :
  let e := mkEnv (Ok 11000000) (Ok 1%R) (Ok 2%R) (Ok 7) (Ok 3) (Ok tt) in
  let t := run_ops [OpStart 0; OpIteration e] (MasterpieceActivityTracker None) in
  is_tracking t = true
  /\ option_map duration_seconds (live_session t) = Some 11
  /\ stored_sessions (db_manager t) = 5%nat
  /\ stored_sessions (db_manager (fst (stop_tracking t))) = 5%nat
  /\ stored_sessions (db_manager (fst (stop_tracking t)))
     <> S (stored_sessions (db_manager t))
  /\ db_manager (fst (stop_tracking t)) = db_manager t
  /\ List.length (snd (stop_tracking t)) = 2%nat.
Proof.
  intros e t.
  split; [reflexivity |].
  split; [reflexivity |].
  split; [reflexivity |].
  split; [reflexivity |].
  split.
  { change (stored_sessions (db_manager (fst (stop_tracking t)))) with 5%nat.
    change (stored_sessions (db_manager t)) with 5%nat. discriminate. }
  split; reflexivity.
Qed.

Lemma thread_step_idle e t th : idle t -> idle (fst (fst (thread_step e t th))).
Proof.
  intros [Hf Hn]. split.
  - now rewrite thread_step_flag.
  - now apply thread_step_no_session.
Qed.

Lemma loop_steps_idle acts : forall w,
  forallb is_loop_step acts = true -> idle (trk w) -> idle (trk (run_world acts w)).
Proof.
  induction acts as [| a acts IH]; intros w Hall Hi; simpl in *; [assumption |].
  apply andb_prop in Hall as [Ha Hall].
  apply IH; [assumption |].
  destruct a as [now | | i e]; try discriminate Ha. simpl.
  destruct (nth_error (loops w) i) as [th |]; [| assumption].
  pose proof (thread_step_idle e (trk w) th Hi) as H.
  now destruct (thread_step e (trk w) th) as [[t' th'] evs].
Qed.

Lemma thread_step_typing e t th r :
  at_pc th = AtTyping -> env_typing e = Ok r ->
  thread_step e t th = (set_typing_events (typing_events t + r) t, goto AtMouse th, []).
Proof.
  destruct th as [p l]. simpl. intros -> Hr.
  unfold thread_step, exec_stmt. simpl. now rewrite Hr.
Qed.

Lemma thread_step_mouse e t th r :
  at_pc th = AtMouse -> env_mouse e = Ok r ->
  thread_step e t th = (set_mouse_events (mouse_events t + r) t, goto AtSleep th, []).
Proof.
  destruct th as [p l]. simpl. intros -> Hr.
  unfold thread_step, exec_stmt. simpl. now rewrite Hr.
Qed.

(** C7, as the code has it ([stop_tracking] clears the flag and the session
    reference and returns without waiting for the loop thread; statements of
    the loop are taken as atomic).  After [stop_tracking] has returned on a
    tracking engine, and as long as no new [start_tracking] is made, whatever
    the loop threads do: the engine stays Idle and [get_live_session_data]
    returns [None]; a loop that tests its guard leaves without any effect; a
    statement of a pass in flight that goes through [self.live_session]
    raises, which is logged and ends that loop with the tracker untouched;
    but a pass in flight that has reached the two counter updates still adds
    its draws to [typing_events] and [mouse_events]. *)
Theorem C7_after_stop_returns :
  forall w acts,
    is_tracking (trk w) = true ->
    forallb is_loop_step acts = true ->
    let w' := run_world acts (world_step CallStop w) in
    idle (trk w')
    /\ get_live_session_data (trk w') = None
    /\ forall i th e,
        nth_error (loops w') i = Some th ->
        let w'' := world_step (LoopStep i e) w' in
        get_live_session_data (trk w'') = None
        /\ (at_pc th = AtWhile ->
            trk w'' = trk w' /\ effects w'' = effects w'
            /\ nth_error (loops w'') i = Some (goto Exited th))
        /\ (forall attr,
              dereferences_session (at_pc th) = Some attr ->
              trk w'' = trk w'
              /\ effects w'' =
                   effects w' ++ [EvLog ERROR (MsgTrackingError (AttributeError attr))]
              /\ nth_error (loops w'') i = Some (goto Exited th))
        /\ (forall r,
              at_pc th = AtTyping -> env_typing e = Ok r ->
              typing_events (trk w'') = typing_events (trk w') + r)
        /\ (forall r,
              at_pc th = AtMouse -> env_mouse e = Ok r ->
              mouse_events (trk w'') = mouse_events (trk w') + r).
Proof.
  intros w acts Htr Hall w'.
  assert (Hidle : idle (trk w')).
  { apply loop_steps_idle; [assumption |].
    rewrite trk_call_stop. now apply stop_tracking_releases. }
  split; [exact Hidle |].
  split; [exact (proj2 Hidle) |].
  intros i th e Hn w''. unfold w''.
  rewrite (world_loop_step w' i e th Hn).
  split; [| split; [| split; [| split]]].
  - simpl. apply thread_step_no_session, Hidle.
  - intros Hpc.
    rewrite (thread_step_guard_false e (trk w') th Hpc (proj1 Hidle)). simpl.
    repeat split; [apply app_nil_r | now apply nth_error_set_nth with (y := th)].
  - intros attr Hd.
    rewrite (thread_step_released e (trk w') th attr Hd (proj2 Hidle)). simpl.
    repeat split. now apply nth_error_set_nth with (y := th).
  - intros r Hpc Hr. now rewrite (thread_step_typing e (trk w') th r Hpc Hr).
  - intros r Hpc Hr. now rewrite (thread_step_mouse e (trk w') th r Hpc Hr).
Qed.

Lemma C7_witness :
  let e := mkEnv (Ok 0) (Ok 0%R) (Ok 0%R) (Ok 7) (Ok 3) (Ok tt) in
  let w := run_world (CallStart 0 :: repeat (LoopStep 0 e) 12) (initial_world None) in
  let w' := run_world [] (world_step CallStop w) in
  let w'' := world_step (LoopStep 0 e) w' in
  is_tracking (trk w) = true
  /\ option_map at_pc (nth_error (loops w') 0) = Some AtAppendProd
  /\ idle (trk w')
  /\ trk w'' = trk w'
  /\ effects w'' =
       effects w'
       ++ [EvLog ERROR (MsgTrackingError (AttributeError "productivity_scores"))].
Proof.
  intros e w w' w''.
  destruct (C7_after_stop_returns w [] eq_refl eq_refl) as (Hi & _ & Hstep).
  destruct (Hstep 0%nat
              (mkThread AtAppendProd
                 (mkLocals 0 0
                    (85 + 10 * sin (total_seconds 0 / 60)) 0
                    (focus_of (85 + 10 * sin (total_seconds 0 / 60)) 0)
                    (88 + 8 * cos (total_seconds 0 / 45)) 0
                    (productivity_of (88 + 8 * cos (total_seconds 0 / 45)) 0)))
              e eq_refl)
    as (_ & _ & Hraise & _).
  destruct (Hraise "productivity_scores"%string eq_refl) as (Ht & He & _).
  split; [reflexivity |].
  split; [reflexivity |].
  split; [exact Hi |].
  split; [exact Ht | exact He].
Defined.

(** The run against C7.  From a new tracker: start at time 0; the loop
    thread runs the fifteen statements from its guard up to the test
    [elapsed % 10 < 1], which holds since [elapsed] is 0; [stop_tracking]
    runs and returns; the thread then runs its next statement,
    [self.typing_events += np.random.randint(5, 15)], with a draw of 7.
    The counter is 0 when [stop_tracking] returns and 7 afterwards. *)
Lemma C7_counterexample :
  let e := mkEnv (Ok 0) (Ok 0%R) (Ok 0%R) (Ok 7) (Ok 3) (Ok tt) in
  let w := run_world (CallStart 0 :: repeat (LoopStep 0 e) 15 ++ [CallStop])
             (initial_world None) in
  let w' := world_step (LoopStep 0 e) w in
  idle (trk w)
  /\ option_map at_pc (nth_error (loops w) 0) = Some AtTyping
  /\ typing_events (trk w) = 0
  /\ typing_events (trk w') = 7
  /\ typing_events (trk w') <> typing_events (trk w).
Proof.
  intros e w w'.
  split; [split; reflexivity |].
  split; [reflexivity |].
  split; [reflexivity |].
  split; [reflexivity |].
  change (typing_events (trk w')) with 7.
  change (typing_events (trk w)) with 0. discriminate.
Qed.

(** ** The session store *)

Module DatabaseFacts.
Import Database.









(** The constructor call fails, so the loop over the rows builds a list
    only when there is no row. *)
Lemma build_sessions_cases fetched :
  (fetched = [] /\ build_sessions fetched = Ok [])
  \/ (exists row rest detail,
        fetched = row :: rest /\ build_sessions fetched = Raise (TypeError detail)).
Proof.
  destruct fetched as [| row rest]; [now left |].
  right. exists row, rest. eexists. split; reflexivity.
Qed.

Lemma get_sessions_nil db now days : get_sessions db now days = [].
Proof.
  unfold get_sessions, get_sessions_try, bind.
  destruct (cutoff_date now days) as [cutoff |]; [| reflexivity].
  destruct (select_sessions db cutoff) as [fetched |]; [| reflexivity].
  destruct (build_sessions_cases fetched)
    as [[_ ->] | (row & rest & detail & _ & ->)]; reflexivity.
Qed.

End DatabaseFacts.



(** C9. Whatever the database file held, constructing the manager leaves a
    [sessions] table holding exactly the five seeded rows, numbered 1 to 5
    in the order of [demo_sessions]; the first of them has application
    "vscode.exe", a duration of 4200 seconds and a focus score of 96.  The
    result does not depend on the earlier content. *)
Theorem C9_construction_drops_and_reseeds :
  forall file,
    exists tb,
      Database.AdvancedDatabaseManager file = Some tb
      /\ Database.rows tb =
           map (fun ip => Database.row_of_params (fst ip) (snd ip))
               (combine [1; 2; 3; 4; 5] Database.demo_sessions)
      /\ List.length (Database.rows tb) = 5%nat
      /\ stored_sessions (Database.AdvancedDatabaseManager file) = 5%nat
      /\ (exists r,
            In r (Database.rows tb)
            /\ Database.col_application r = "vscode.exe"%string
            /\ Database.col_duration_seconds r = PyInt 4200
            /\ Database.col_focus_score r = PyFloat 96)
      /\ Database.AdvancedDatabaseManager file
         = Database.AdvancedDatabaseManager None
      /\ Database.drop_table_if_exists file = None.
Proof.
  intros file.
  exists (Database.mkTable
            (map (fun ip => Database.row_of_params (fst ip) (snd ip))
                 (combine [1; 2; 3; 4; 5] Database.demo_sessions)) 5).
  repeat split.
  exists (Database.row_of_params 1
            (nth 0 Database.demo_sessions
                 (Database.mkParams 0 "" "" 0 "" "" 0 0 0 0 0 0 0 0 0 0 "" 0 0 0 0 "" false))).
  repeat split. simpl. left. reflexivity.
Qed.

(** ** Defaults of the query *)

Lemma py_or_default v d : null_or_zero v -> py_or v d = d.
Proof.
  unfold null_or_zero, py_or.
  intros [-> | [-> | [-> | ->]]]; simpl; try reflexivity.
  destruct (Req_dec_T 0 0) as [_ | Hne]; [reflexivity | now contradiction Hne].
Qed.

Lemma break_compliance_default v :
  null_or_zero v -> Database.break_compliance_of v = PyBool false.
Proof.
  unfold null_or_zero.
  intros [-> | [-> | [-> | ->]]]; simpl; try reflexivity.
  destruct (Req_dec_T 0 0) as [_ | Hne]; [reflexivity | now contradiction Hne].
Qed.

(** C10, on the code.  For a fetched row, [get_sessions] does compute the
    keyword arguments with the defaults: a focus score column holding NULL,
    0 or 0.0 gives the argument [focus_score=50.0], and so on for the other
    optional columns.  But the [AdvancedFocusSession] of [models.py] has no
    field: the call with these arguments raises TypeError for every row, the
    [except] clause returns the empty list, and no record, with or without
    defaults, is ever returned.  For a table holding one row stored with
    focus score 0, the query over the last 7 days returns nothing. *)
Theorem C10_record_with_defaults_is_never_returned :
  (forall row,
      (null_or_zero (Database.col_focus_score row) ->
       Database.focus_score (Database.session_kwargs row) = PyFloat 50)
      /\ (null_or_zero (Database.col_category row) ->
          Database.category (Database.session_kwargs row) = PyStr "Uncategorized")
      /\ (null_or_zero (Database.col_break_compliance row) ->
          Database.break_compliance (Database.session_kwargs row) = PyBool false)
      /\ exists detail, Database.session_of_row row = Raise (TypeError detail))
  /\ (forall db now days, Database.get_sessions db now days = [])
  /\ (let p := Database.mkParams (datetime_of 2025 8 24 9 0 0) "idle.exe" "" 0
                 "" "" 0 0 0 0 0 0 0 0 0 0 "" 0 0 0 0 "" false in
      let row := Database.row_of_params 1 p in
      let db := Some (Database.mkTable [row] 1) in
      let now := datetime_of 2025 8 25 12 0 0 in
      Database.col_focus_score row = PyFloat 0
      /\ Database.select_sessions db (now - 7 * MICROS_PER_DAY) = Ok [row]
      /\ Database.focus_score (Database.session_kwargs row) = PyFloat 50
      /\ Database.get_sessions db now 7 = []).
Proof.
  split; [| split].
  - intros row. split; [| split; [| split]].
    + intros Hz. simpl. now apply py_or_default.
    + intros Hz. simpl. now apply py_or_default.
    + intros Hz. simpl. now apply break_compliance_default.
    + eexists. reflexivity.
  - apply DatabaseFacts.get_sessions_nil.
  - split; [reflexivity |]. split; [reflexivity |].
    split; [| apply DatabaseFacts.get_sessions_nil].
    simpl. apply py_or_default. right; right; left. reflexivity.
Qed.

Lemma C10_witness :
  let p := Database.mkParams (datetime_of 2025 8 24 9 0 0) "idle.exe" "" 0
             "" "" 0 0 0 0 0 0 0 0 0 0 "" 0 0 0 0 "" false in
  let row := Database.row_of_params 1 p in
  Database.focus_score (Database.session_kwargs row) = PyFloat 50
  /\ Database.category (Database.session_kwargs row) = PyStr "Uncategorized"
  /\ Database.break_compliance (Database.session_kwargs row) = PyBool false.
Proof.
  intros p row.
  destruct (proj1 C10_record_with_defaults_is_never_returned row)
    as (Hf & Hc & Hb & _).
  split; [apply Hf; right; right; left; reflexivity |].
  split; [apply Hc; right; right; right; reflexivity |].
  apply Hb. right; left. reflexivity.
Defined.

(** * Further properties of the tracker *)

(** ** What the passes of the loop collect *)

Lemma sample_of_Some e ct n n' :
  sample_of e = Some (ct, n, n') <->
  env_now e = Ok ct /\ env_noise e = Ok n /\ env_prod_noise e = Ok n'.
Proof.
  unfold sample_of.
  destruct (env_now e), (env_noise e), (env_prod_noise e); split;
    try (intros H; discriminate H);
    try (intros (H1 & H2 & H3); discriminate).
  - intros H. injection H as -> -> ->. repeat split.
  - intros (H1 & H2 & H3). injection H1 as ->. injection H2 as ->.
    injection H3 as ->. reflexivity.
Qed.

(** A pass on a tracking engine with a session takes the sample of its
    environment, or none. *)
Lemma pass_session e t th s :
  at_pc th = AtWhile ->
  is_tracking t = true ->
  live_session t = Some s ->
  live_session (fst (fst (iteration e t th))) =
    Some (match sample_of e with
          | Some (ct, n, n') => sampled s ct n n'
          | None => s
          end).
Proof.
  intros Hpc Htr Hs.
  destruct (sample_of e) as [[[ct n] n'] |] eqn:Hsample.
  - apply sample_of_Some in Hsample as (Hnow & Hn & Hn').
    now apply iteration_samples.
  - destruct (iteration_live_session e t th Hpc)
      as [Heq | (s0 & ct & n & n' & _ & _ & Hnow & Hn & Hn' & _)].
    + now rewrite Heq.
    + assert (Hsome : sample_of e = Some (ct, n, n'))
        by (apply sample_of_Some; repeat split; assumption).
      rewrite Hsample in Hsome. discriminate Hsome.
Qed.




(** ** The activity counters *)

Lemma pass_counters e t th :
  at_pc th = AtWhile ->
  draws_in_range e ->
  let t' := fst (fst (iteration e t th)) in
  typing_events t <= typing_events t' <= typing_events t + 14
  /\ mouse_events t <= mouse_events t' <= mouse_events t + 7
  /\ app_switches t' = app_switches t.
Proof.
  intros Hpc [Hty Hmo].
  destruct t as [db cs ls tr sst ty mo ap], th as [p l],
           e as [en eno epn ety emo esl].
  simpl in Hpc, Hty, Hmo; subst p. unfold iteration.
  destruct tr; [| crunch_pass; lia].
  destruct ls as [s |]; [| crunch_pass; destruct esl; crunch_pass; lia].
  destruct en as [ct |]; [| crunch_pass; lia].
  destruct eno as [n |]; [| crunch_pass; lia].
  destruct epn as [n' |]; [| crunch_pass; lia].
  crunch_pass.
  destruct (in_first_second_of_ten (ct - start_time s)); crunch_pass;
    [| destruct esl; crunch_pass; lia].
  destruct ety as [r |]; [| crunch_pass; lia].
  specialize (Hty r eq_refl).
  destruct emo as [r' |]; [| crunch_pass; lia].
  specialize (Hmo r' eq_refl).
  destruct esl; crunch_pass; lia.
Qed.

Lemma pass_counters_quiet e t th s ct n n' :
  at_pc th = AtWhile ->
  live_session t = Some s ->
  sample_of e = Some (ct, n, n') ->
  in_first_second_of_ten (ct - start_time s) = false ->
  let t' := fst (fst (iteration e t th)) in
  typing_events t' = typing_events t /\ mouse_events t' = mouse_events t.
Proof.
  intros Hpc Hs Hsample Hten.
  apply sample_of_Some in Hsample as (Hnow & Hn & Hn').
  destruct t as [db cs ls tr sst ty mo ap], th as [p l],
           e as [en eno epn ety emo esl].
  simpl in *; subst. unfold iteration.
  destruct tr; [| crunch_pass; split; reflexivity].
  crunch_pass. rewrite Hten. crunch_pass.
  destruct esl; crunch_pass; split; reflexivity.
Qed.

Lemma start_tracking_counters now t :
  let t' := fst (start_tracking now t) in
  (0 <= typing_events t -> 0 <= typing_events t')
  /\ (0 <= mouse_events t -> 0 <= mouse_events t')
  /\ (app_switches t = 0 -> app_switches t' = 0).
Proof.
  unfold start_tracking. destruct (is_tracking t); simpl; repeat split; auto; lia.
Qed.

Lemma stop_tracking_counters t :
  let t' := fst (stop_tracking t) in
  typing_events t' = typing_events t
  /\ mouse_events t' = mouse_events t
  /\ app_switches t' = app_switches t.
Proof.
  unfold stop_tracking. destruct (is_tracking t); simpl; repeat split.
Qed.

Lemma run_ops_counters os : forall t,
  Forall op_draws_in_range os ->
  0 <= typing_events t -> 0 <= mouse_events t -> app_switches t = 0 ->
  0 <= typing_events (run_ops os t)
  /\ 0 <= mouse_events (run_ops os t)
  /\ app_switches (run_ops os t) = 0.
Proof.
  induction os as [| o os IH]; intros t Hall Hty Hmo Hap; simpl.
  - repeat split; assumption.
  - apply Forall_cons_iff in Hall as [Ho Hall].
    destruct o as [now | | e].
    + destruct (start_tracking_counters now t) as (H1 & H2 & H3).
      apply IH; simpl; auto.
    + destruct (stop_tracking_counters t) as (H1 & H2 & H3).
      apply IH; simpl; [assumption | rewrite H1 | rewrite H2 | rewrite H3];
        assumption.
    + destruct (pass_counters e t new_thread eq_refl Ho) as (H1 & H2 & H3).
      apply IH; simpl; [assumption | lia | lia | rewrite H3; assumption].
Qed.

(** X2. A pass of the loop whose random draws lie in the ranges of
    [randint(5, 15)] and [randint(2, 8)] raises [typing_events] by at most
    14 and [mouse_events] by at most 7 and lowers neither; a pass that takes
    its sample outside the first second of a ten-second period changes
    neither.  From a new tracker, whatever starts, stops and such passes
    follow, both counters stay non-negative, and [app_switches] is 0: the
    engine never counts an application switch. *)
Theorem counters_only_grow_and_app_switches_stay_zero :
  (forall e t th,
      at_pc th = AtWhile ->
      draws_in_range e ->
      let t' := fst (fst (iteration e t th)) in
      typing_events t <= typing_events t' <= typing_events t + 14
      /\ mouse_events t <= mouse_events t' <= mouse_events t + 7)
  /\ (forall e t th s ct n n',
        at_pc th = AtWhile ->
        live_session t = Some s ->
        sample_of e = Some (ct, n, n') ->
        in_first_second_of_ten (ct - start_time s) = false ->
        let t' := fst (fst (iteration e t th)) in
        typing_events t' = typing_events t /\ mouse_events t' = mouse_events t)
  /\ (forall file os,
        Forall op_draws_in_range os ->
        let t := run_ops os (MasterpieceActivityTracker file) in
        0 <= typing_events t /\ 0 <= mouse_events t /\ app_switches t = 0).
Proof.
  split; [| split].
  - intros e t th Hpc Hr t'.
    destruct (pass_counters e t th Hpc Hr) as (H1 & H2 & _). split; assumption.
  - intros e t th s ct n n' Hpc Hs Hsample Hten.
    now apply pass_counters_quiet with s ct n n'.
  - intros file os Hall.
    apply run_ops_counters; simpl; try assumption; try lia; reflexivity.
Qed.

Lemma counters_witness :
  let e := mkEnv (Ok 30000000) (Ok 1%R) (Ok 2%R) (Ok 7) (Ok 3) (Ok tt) in
  let late := mkEnv (Ok 35000000) (Ok 1%R) (Ok 2%R) (Ok 7) (Ok 3) (Ok tt) in
  let t := run_ops [OpStart 0; OpIteration e] (MasterpieceActivityTracker None) in
  typing_events t = 7
  /\ typing_events (fst (fst (iteration late t new_thread))) = typing_events t
  /\ typing_events t <= typing_events (fst (fst (iteration e t new_thread)))
  /\ app_switches t = 0.
Proof.
  intros e late t.
  assert (Hr : draws_in_range e).
  { split; intros r Hr; injection Hr as <-; lia. }
  destruct counters_only_grow_and_app_switches_stay_zero as (Hgrow & Hquiet & Hinv).
  split; [reflexivity |].
  split.
  { exact (proj1 (Hquiet late t new_thread
                    (sampled (new_LiveSessionData 0 "FocusPulse Elite"
                                "Productivity Tracking Session") 30000000 1 2)
                    35000000 1%R 2%R eq_refl eq_refl eq_refl eq_refl)). }
  split.
  { exact (proj1 (proj1 (Hgrow e t new_thread eq_refl Hr))). }
  assert (Hall : Forall op_draws_in_range [OpStart 0; OpIteration e]).
  { apply Forall_cons; [exact I |].
    apply Forall_cons; [exact Hr | apply Forall_nil]. }
  exact (proj2 (proj2 (Hinv None [OpStart 0; OpIteration e] Hall))).
Defined.

(** ** Stopping, again *)

(** X3. A pass that takes its sample and a stop right after it: the session
    is summarised in the log (with its whole seconds and the mean of its
    focus buffer) exactly when the sample was taken 11 seconds or more
    after the session's start; before that, only the "stopped" record is
    written.  In both cases the engine is Idle afterwards. *)
Theorem stop_summarises_from_eleven_seconds :
  forall e t th s ct n n',
    at_pc th = AtWhile ->
    is_tracking t = true ->
    live_session t = Some s ->
    sample_of e = Some (ct, n, n') ->
    let t1 := fst (fst (iteration e t th)) in
    (ct - start_time s < 11 * MICROS_PER_SECOND ->
     snd (stop_tracking t1) = [EvLog INFO MsgStopped])
    /\ (11 * MICROS_PER_SECOND <= ct - start_time s ->
        snd (stop_tracking t1) =
          [EvLog INFO (MsgCompleted ((ct - start_time s) / MICROS_PER_SECOND)
                         (avg_focus (sampled s ct n n')));
           EvLog INFO MsgStopped])
    /\ idle (fst (stop_tracking t1)).
Proof.
  intros e t th s ct n n' Hpc Htr Hs Hsample t1.
  assert (Hlive : live_session t1 = Some (sampled s ct n n')).
  { unfold t1. rewrite (pass_session e t th s Hpc Htr Hs), Hsample. reflexivity. }
  assert (Htr1 : is_tracking t1 = true).
  { unfold t1. destruct (iteration_frame e t th Hpc) as (Hf & _). now rewrite Hf. }
  assert (Hdur : duration_seconds (sampled s ct n n')
                 = Z.quot (ct - start_time s) MICROS_PER_SECOND) by reflexivity.
  assert (Hm : MICROS_PER_SECOND = 1000000) by reflexivity.
  split; [| split].
  - intros Hlt. unfold stop_tracking, finalize_session. rewrite Htr1. simpl.
    rewrite Hlive, Hdur.
    replace (Z.quot (ct - start_time s) MICROS_PER_SECOND >? 10) with false;
      [reflexivity |].
    symmetry. rewrite Z.gtb_ltb. apply Z.ltb_ge.
    destruct (Z.le_gt_cases 0 (ct - start_time s)) as [Hnn | Hneg].
    + rewrite Z.quot_div_nonneg by lia.
      apply Z.lt_succ_r, Z.div_lt_upper_bound; lia.
    + pose proof (Z.quot_opp_l (ct - start_time s) MICROS_PER_SECOND
                    ltac:(lia)) as Hopp.
      assert (0 <= Z.quot (- (ct - start_time s)) MICROS_PER_SECOND)
        by (apply Z.quot_pos; lia).
      lia.
  - intros Hge. unfold stop_tracking, finalize_session. rewrite Htr1. simpl.
    rewrite Hlive, Hdur.
    rewrite Z.quot_div_nonneg by lia.
    replace ((ct - start_time s) / MICROS_PER_SECOND >? 10) with true;
      [reflexivity |].
    symmetry. apply Z.gtb_lt.
    assert (11 <= (ct - start_time s) / MICROS_PER_SECOND)
      by (apply Z.div_le_lower_bound; lia).
    lia.
  - now apply stop_tracking_releases.
Qed.

Lemma stop_summarises_from_eleven_seconds_witness :
  let t := fst (start_tracking 0 (MasterpieceActivityTracker None)) in
  let early := mkEnv (Ok 10999999) (Ok 1%R) (Ok 2%R) (Ok 7) (Ok 3) (Ok tt) in
  let late := mkEnv (Ok 11000000) (Ok 1%R) (Ok 2%R) (Ok 7) (Ok 3) (Ok tt) in
  snd (stop_tracking (fst (fst (iteration early t new_thread))))
    = [EvLog INFO MsgStopped]
  /\ List.length (snd (stop_tracking (fst (fst (iteration late t new_thread)))))
     = 2%nat.
Proof.
  intros t early late.
  pose (s := new_LiveSessionData 0 "FocusPulse Elite" "Productivity Tracking Session").
  destruct (stop_summarises_from_eleven_seconds early t new_thread s
              10999999 1%R 2%R eq_refl eq_refl eq_refl eq_refl) as (He & _ & _).
  destruct (stop_summarises_from_eleven_seconds late t new_thread s
              11000000 1%R 2%R eq_refl eq_refl eq_refl eq_refl) as (_ & Hl & _).
  split.
  - apply He. vm_compute. reflexivity.
  - rewrite Hl; [reflexivity |]. vm_compute. discriminate.
Defined.

(** X4. [stop_tracking] is idempotent: whatever the state of the tracker, a
    second call right after a first one changes nothing and logs nothing,
    and a call on an engine that is not tracking leaves even a stale
    session reference where it is. *)
Theorem stop_tracking_twice :
  forall t,
    stop_tracking (fst (stop_tracking t)) = (fst (stop_tracking t), [])
    /\ (is_tracking t = false -> stop_tracking t = (t, [])).
Proof.
  intros t. unfold stop_tracking.
  destruct (is_tracking t) eqn:Htr; simpl.
  - split; [reflexivity | discriminate].
  - rewrite Htr. simpl. split; reflexivity.
Qed.

Lemma stop_tracking_twice_witness :
  let t := MasterpieceActivityTracker None in
  stop_tracking t = (t, []).
Proof.
  intros t. exact (proj2 (stop_tracking_twice t) eq_refl).
Defined.

(** ** Restarting *)

Lemma running_loops_app w ths :
  List.length (filter running (loops w ++ ths))
  = (running_loops w + List.length (filter running ths))%nat.
Proof. unfold running_loops. now rewrite filter_app, length_app. Qed.

(** X5. A stop followed by a start, on a tracking engine: the new session
    is empty and starts at the time of the start, the three counters are
    back to 0, and one more loop thread is running than before, since the
    stop ended none.  A thread of the old session that tests its guard only
    after the start finds the flag set and goes on, into the new session. *)
Theorem restart_keeps_old_loops_running :
  forall w now,
    is_tracking (trk w) = true ->
    let w' := world_step (CallStart now) (world_step CallStop w) in
    live_session (trk w') =
      Some (new_LiveSessionData now "FocusPulse Elite"
              "Productivity Tracking Session")
    /\ is_tracking (trk w') = true
    /\ typing_events (trk w') = 0
    /\ mouse_events (trk w') = 0
    /\ app_switches (trk w') = 0
    /\ loops w' = loops w ++ [new_thread]
    /\ running_loops w' = S (running_loops w)
    /\ (forall i th e,
          nth_error (loops w) i = Some th ->
          at_pc th = AtWhile ->
          nth_error (loops (world_step (LoopStep i e) w')) i
            = Some (goto AtIfSession th)).
Proof.
  intros w now Htr w'.
  assert (Hw' : w' = mkWorld
                       (fst (start_tracking now (fst (stop_tracking (trk w)))))
                       (loops w ++ [new_thread])
                       (effects w ++ snd (stop_tracking (trk w))
                        ++ [EvLog INFO MsgStarted; EvThreadStart])).
  { unfold w'. simpl. unfold stop_tracking at 1 2. rewrite Htr. simpl.
    unfold stop_tracking. rewrite Htr. simpl.
    rewrite <- !app_assoc. reflexivity. }
  assert (Ht : trk w' = fst (start_tracking now (fst (stop_tracking (trk w)))))
    by now rewrite Hw'.
  assert (Hloops : loops w' = loops w ++ [new_thread]) by now rewrite Hw'.
  unfold stop_tracking, start_tracking in Ht. rewrite Htr in Ht. simpl in Ht.
  repeat split; try (rewrite Ht; reflexivity).
  - exact Hloops.
  - unfold running_loops at 1. rewrite Hloops, running_loops_app. simpl. lia.
  - intros i th e Hn Hpc.
    assert (Hn' : nth_error (loops w') i = Some th).
    { rewrite Hloops, nth_error_app1; [assumption |].
      apply nth_error_Some. congruence. }
    rewrite (world_loop_step w' i e th Hn'). simpl.
    assert (Hstep : thread_step e (trk w') th = (trk w', goto AtIfSession th, [])).
    { destruct th as [p l]. simpl in Hpc. subst p.
      unfold thread_step, exec_stmt. simpl. rewrite Ht. reflexivity. }
    rewrite Hstep. simpl. now apply nth_error_set_nth with (y := th).
Qed.

Lemma restart_keeps_old_loops_running_witness :
  let e := mkEnv (Ok 0) (Ok 0%R) (Ok 0%R) (Ok 7) (Ok 3) (Ok tt) in
  let w := run_world (CallStart 0 :: repeat (LoopStep 0 e) 18) (initial_world None) in
  let w' := world_step (CallStart 5) (world_step CallStop w) in
  running_loops w = 1%nat
  /\ running_loops w' = 2%nat
  /\ option_map at_pc (nth_error (loops (world_step (LoopStep 0 e) w')) 0)
     = Some AtIfSession.
Proof.
  intros e w w'.
  destruct (restart_keeps_old_loops_running w 5 eq_refl)
    as (_ & _ & _ & _ & _ & _ & Hrun & Hold).
  split; [reflexivity |].
  split; [exact Hrun |].
  unfold w'.
  rewrite (Hold 0%nat
             (mkThread AtWhile
                (mkLocals 0 0
                   (85 + 10 * sin (total_seconds 0 / 60)) 0
                   (focus_of (85 + 10 * sin (total_seconds 0 / 60)) 0)
                   (88 + 8 * cos (total_seconds 0 / 45)) 0
                   (productivity_of (88 + 8 * cos (total_seconds 0 / 45)) 0)))
             e eq_refl eq_refl).
  reflexivity.
Defined.

(** ** The summary of a session *)

Lemma sum_bounds (a b : R) (l : list R) :
  Forall (fun x => a <= x <= b)%R l ->
  (INR (List.length l) * a <= fold_right Rplus 0 l <= INR (List.length l) * b)%R.
Proof.
  induction 1 as [| x l Hx Hl IH].
  - simpl. lra.
  - change (List.length (x :: l)) with (S (List.length l)).
    rewrite S_INR. simpl fold_right. lra.
Qed.

Lemma np_mean_bounds (a b : R) (l : list R) :
  l <> [] ->
  Forall (fun x => a <= x <= b)%R l ->
  (a <= np_mean l <= b)%R.
Proof.
  intros Hne Hall. unfold np_mean.
  assert (Hpos : (0 < INR (List.length l))%R).
  { apply lt_0_INR. destruct l; [contradiction | simpl; lia]. }
  destruct (sum_bounds a b l Hall) as [Hlo Hhi].
  split.
  - apply Rmult_le_reg_r with (INR (List.length l)); [assumption |].
    unfold Rdiv. rewrite Rmult_assoc, Rinv_l by lra. lra.
  - apply Rmult_le_reg_r with (INR (List.length l)); [assumption |].
    unfold Rdiv. rewrite Rmult_assoc, Rinv_l by lra. lra.
Qed.

(** X6. In every state the engine can reach from a new tracker, the two
    figures [stop_tracking] computes for the live session are within the
    bounds of the samples: the focus summary lies in [20, 100] and the
    productivity summary in [30, 100], the defaults 85 and 88 of an empty
    buffer included. *)
Theorem summary_means_in_range :
  forall file os s,
    live_session (run_ops os (MasterpieceActivityTracker file)) = Some s ->
    (20 <= avg_focus s <= 100)%R /\ (30 <= avg_productivity s <= 100)%R.
Proof.
  intros file os s Hs.
  destruct (reachable_inv file os s Hs) as (_ & _ & Hf & Hp).
  unfold avg_focus, avg_productivity, Deque.truthy, Deque.len, Deque.to_list.
  split.
  - destruct (Deque.items (focus_scores s)) as [| x l] eqn:Hl; simpl; [lra |].
    apply np_mean_bounds; [discriminate | assumption].
  - destruct (Deque.items (productivity_scores s)) as [| x l] eqn:Hl; simpl; [lra |].
    apply np_mean_bounds; [discriminate | assumption].
Qed.

Lemma summary_means_in_range_witness :
  let e := mkEnv (Ok 30000000) (Ok 1%R) (Ok 2%R) (Ok 7) (Ok 3) (Ok tt) in
  let s := sampled (new_LiveSessionData 0 "FocusPulse Elite"
                      "Productivity Tracking Session") 30000000 1 2 in
  Deque.len (focus_scores s) = 1%nat /\ (20 <= avg_focus s <= 100)%R.
Proof.
  intros e s. split; [reflexivity |].
  exact (proj1 (summary_means_in_range None [OpStart 0; OpIteration e] s eq_refl)).
Defined.

(** * Further properties of the session store *)

(** X7. [get_sessions] returns the empty list on every database, clock
    reading and number of days.  Whenever its SELECT fetches a row, the call
    [AdvancedFocusSession(id=..., ...)] raises TypeError, because the class
    of [models.py] has no field, and the [except] clause returns the empty
    list; when nothing is fetched the list built is empty. *)
Theorem get_sessions_returns_no_record :
  forall db now d,
    Database.get_sessions db now d = []
    /\ (forall cutoff row rest,
          Database.cutoff_date now d = Ok cutoff ->
          Database.select_sessions db cutoff = Ok (row :: rest) ->
          exists detail,
            Database.get_sessions_try db now d = Raise (TypeError detail))
    /\ (forall cutoff,
          Database.cutoff_date now d = Ok cutoff ->
          Database.select_sessions db cutoff = Ok [] ->
          Database.get_sessions_try db now d = Ok []).
Proof.
  intros db now d.
  split; [apply DatabaseFacts.get_sessions_nil |].
  split.
  - intros cutoff row rest Hc Hsel.
    unfold Database.get_sessions_try, bind. rewrite Hc, Hsel.
    eexists. reflexivity.
  - intros cutoff Hc Hsel.
    unfold Database.get_sessions_try, bind. rewrite Hc, Hsel. reflexivity.
Qed.

Lemma get_sessions_returns_no_record_witness :
  let db := Database.AdvancedDatabaseManager None in
  let now := datetime_of 2025 8 25 12 0 0 in
  stored_sessions db = 5%nat
  /\ Database.get_sessions db now 7 = []
  /\ exists detail, Database.get_sessions_try db now 7 = Raise (TypeError detail).
Proof.
  intros db now.
  destruct (get_sessions_returns_no_record db now 7) as (Hnil & Hraise & _).
  split; [reflexivity |]. split; [exact Hnil |].
  pose (fetched := match Database.select_sessions db (now - 7 * MICROS_PER_DAY) with
                   | Ok l => l
                   | Raise _ => []
                   end).
  exact (Hraise (now - 7 * MICROS_PER_DAY) (hd (Database.row_of_params 0
                   (nth 0 Database.demo_sessions
                      (Database.mkParams 0 "" "" 0 "" "" 0 0 0 0 0 0 0 0 0 0 "" 0 0 0 0 "" false)))
                   fetched) (tl fetched) eq_refl eq_refl).
Defined.

(** ** Inserting *)

Module InsertFacts.
Import Database.

Lemma sorted_snoc (l : list Z) a :
  StronglySorted Z.lt l -> Forall (fun x => x < a) l ->
  StronglySorted Z.lt (l ++ [a]).
Proof.
  induction 1 as [| x l Hs IH Hx]; intros Hall; simpl.
  - constructor; constructor.
  - apply Forall_cons_iff in Hall as [Hxa Hall].
    constructor; [now apply IH |].
    apply Forall_app. split; [assumption | now constructor].
Qed.

Lemma sorted_NoDup (l : list Z) : StronglySorted Z.lt l -> NoDup l.
Proof.
  induction 1 as [| x l Hs IH Hx]; constructor; [| assumption].
  intros Hin. rewrite Forall_forall in Hx. specialize (Hx x Hin). lia.
Qed.

Lemma insert_ok tb p :
  bindable p = true ->
  seq tb < INT64_MAX ->
  insert (Some tb) p =
    Ok (Some (mkTable (rows tb ++ [row_of_params (seq tb + 1) p]) (seq tb + 1))).
Proof.
  intros Hb Hseq. unfold insert. rewrite Hb. simpl.
  replace (INT64_MAX <=? seq tb) with false by (symmetry; apply Z.leb_gt; lia).
  reflexivity.
Qed.

Lemma insert_ids_ok tb p :
  ids_ok tb ->
  ids_ok (mkTable (rows tb ++ [row_of_params (seq tb + 1) p]) (seq tb + 1)).
Proof.
  intros (H0 & Hs & Hb). unfold ids_ok. simpl. split; [lia | split].
  - rewrite map_app. simpl. apply sorted_snoc; [assumption |].
    apply Forall_map. eapply Forall_impl; [| exact Hb]. simpl. intros r Hr. lia.
  - apply Forall_app. split.
    + eapply Forall_impl; [| exact Hb]. simpl. intros r Hr. lia.
    + constructor; [simpl; lia | constructor].
Qed.

Lemma executemany_ok ps : forall tb,
  forallb bindable ps = true ->
  seq tb + Z.of_nat (List.length ps) <= INT64_MAX ->
  executemany (Some tb) ps =
    Ok (Some (mkTable (rows tb ++ rows_of_params (seq tb) ps)
                (seq tb + Z.of_nat (List.length ps)))).
Proof.
  induction ps as [| p ps IH]; intros tb Hall Hroom.
  - simpl. rewrite app_nil_r, Z.add_0_r. now destruct tb.
  - simpl in Hall. apply andb_prop in Hall as [Hp Hall].
    change (List.length (p :: ps)) with (S (List.length ps)) in *.
    cbn [executemany]. rewrite (insert_ok tb p Hp) by lia.
    cbn [bind]. rewrite IH; [| assumption | simpl; lia].
    cbn [rows seq rows_of_params].
    rewrite <- app_assoc. simpl app.
    do 3 f_equal. lia.
Qed.

Lemma executemany_ids_ok ps : forall tb,
  ids_ok tb ->
  ids_ok (mkTable (rows tb ++ rows_of_params (seq tb) ps)
            (seq tb + Z.of_nat (List.length ps))).
Proof.
  induction ps as [| p ps IH]; intros tb Hok.
  - simpl. rewrite app_nil_r, Z.add_0_r. now destruct tb.
  - pose proof (IH _ (insert_ids_ok tb p Hok)) as H.
    cbn [rows seq] in H. rewrite <- app_assoc in H. simpl app in H.
    cbn [rows_of_params List.length].
    replace (seq tb + Z.of_nat (S (List.length ps)))
      with (seq tb + 1 + Z.of_nat (List.length ps)) by lia.
    exact H.
Qed.

End InsertFacts.

(** X11. A bulk INSERT into an existing table, of parameters whose integers
    fit SQLite's 64 bits and while the AUTOINCREMENT counter leaves room
    for them, succeeds and does not disturb what is stored: the rows
    already there are kept, in order, and the new rows follow them,
    numbered from the counter on.  Row ids stay positive, strictly
    increasing along the table and therefore distinct; the table the
    constructor leaves has these properties.  Inserting into a database
    without the table raises OperationalError, an integer outside 64 bits
    raises OverflowError, and a counter that has reached the largest 64-bit
    integer raises "database or disk is full". *)
Theorem executemany_appends_with_fresh_ids :
  (forall tb ps,
      ids_ok tb ->
      forallb Database.bindable ps = true ->
      Database.seq tb + Z.of_nat (List.length ps) <= Database.INT64_MAX ->
      exists tb',
        Database.executemany (Some tb) ps = Ok (Some tb')
        /\ Database.rows tb' = Database.rows tb ++ rows_of_params (Database.seq tb) ps
        /\ Database.seq tb' = Database.seq tb + Z.of_nat (List.length ps)
        /\ ids_ok tb'
        /\ NoDup (map Database.col_id (Database.rows tb')))
  /\ (forall file,
        exists tb, Database.AdvancedDatabaseManager file = Some tb /\ ids_ok tb)
  /\ (forall p ps,
        Database.executemany None (p :: ps)
        = Raise (OperationalError "no such table: sessions"))
  /\ (forall tb p ps,
        Database.bindable p = false ->
        Database.executemany (Some tb) (p :: ps)
        = Raise (OverflowError "Python int too large to convert to SQLite INTEGER"))
  /\ (forall tb p ps,
        Database.bindable p = true ->
        Database.INT64_MAX <= Database.seq tb ->
        Database.executemany (Some tb) (p :: ps)
        = Raise (OperationalError "database or disk is full")).
Proof.
  split; [| split; [| split; [| split]]].
  - intros tb ps Hok Hall Hroom.
    eexists. split; [now apply InsertFacts.executemany_ok |].
    pose proof (InsertFacts.executemany_ids_ok ps tb Hok) as Hok'.
    split; [reflexivity |]. split; [reflexivity |]. split; [exact Hok' |].
    apply InsertFacts.sorted_NoDup. exact (proj1 (proj2 Hok')).
  - intros file. eexists. split; [reflexivity |].
    apply (InsertFacts.executemany_ids_ok Database.demo_sessions
             (Database.mkTable [] 0)).
    unfold ids_ok. simpl. split; [lia |]. split; constructor.
  - reflexivity.
  - intros tb p ps Hb. cbn [Database.executemany]. unfold Database.insert.
    rewrite Hb. reflexivity.
  - intros tb p ps Hb Hfull. cbn [Database.executemany]. unfold Database.insert.
    rewrite Hb. simpl.
    replace (Database.INT64_MAX <=? Database.seq tb) with true
      by (symmetry; apply Z.leb_le; lia).
    reflexivity.
Qed.

Lemma executemany_appends_with_fresh_ids_witness :
  exists tb tb',
    Database.AdvancedDatabaseManager None = Some tb
    /\ Database.executemany (Some tb) Database.demo_sessions = Ok (Some tb')
    /\ map Database.col_id (Database.rows tb') = [1; 2; 3; 4; 5; 6; 7; 8; 9; 10]
    /\ (let big := Database.mkParams 0 "app" "" (2 ^ 63) "" "" 0 0 0 0 0 0 0 0
                     0 0 "" 0 0 0 0 "" false in
        Database.executemany (Some tb) [big]
        = Raise (OverflowError "Python int too large to convert to SQLite INTEGER")).
Proof.
  destruct executemany_appends_with_fresh_ids as (Hok & Hinit & _ & Hover & _).
  destruct (Hinit None) as (tb & Htb & Hids).
  destruct (Hok tb Database.demo_sessions Hids eq_refl) as (tb' & Hex & Hrows & _).
  { injection Htb as <-. vm_compute. discriminate. }
  exists tb, tb'. split; [exact Htb |]. split; [exact Hex |].
  split.
  - rewrite Hrows. injection Htb as <-. reflexivity.
  - apply Hover. reflexivity.
Defined.

(** * Further properties: export, clamp *)

(** ** [export_enhanced_data] *)

(** X13. [export_enhanced_data] returns the empty string and writes no
    file, whatever the database, the clock, the format and the number of
    days: [get_sessions] gives it no session.  Were it given one, the first
    value of the row, [session.timestamp.isoformat()], would raise
    AttributeError, the class having no such attribute, and the result
    would be the empty string again. *)
Theorem export_returns_the_empty_string :
  (forall strftime db clock1 clock2 format_type days,
      Exporter.export_enhanced_data strftime db clock1 clock2 format_type days
      = (""%string, None))
  /\ (forall s rest,
        Exporter.export_rows (s :: rest) = Raise (AttributeError "timestamp")).
Proof.
  split.
  - intros strftime db clock1 clock2 format_type days.
    unfold Exporter.export_enhanced_data.
    now rewrite DatabaseFacts.get_sessions_nil.
  - reflexivity.
Qed.

(** ** [clamp] of the utilities *)

(** X16. [clamp(val, min_val, max_val)] with [min_val <= max_val] returns a
    value of the range, namely [val] itself when it is in the range, and
    clamping twice is clamping once; with crossed bounds
    ([max_val < min_val]) it returns [min_val] whatever [val] is. *)
Theorem utils_clamp_range :
  forall val lo hi,
    ((lo <= hi)%R ->
       (lo <= Utils.clamp val lo hi <= hi)%R
       /\ ((lo <= val <= hi)%R -> Utils.clamp val lo hi = val)
       /\ ((val < lo)%R -> Utils.clamp val lo hi = lo)
       /\ ((hi < val)%R -> Utils.clamp val lo hi = hi)
       /\ Utils.clamp (Utils.clamp val lo hi) lo hi = Utils.clamp val lo hi)
    /\ ((hi < lo)%R -> Utils.clamp val lo hi = lo).
Proof.
  intros val lo hi. unfold Utils.clamp. split.
  - intros Hle. rewrite !py_clamp by assumption.
    pose proof (clamp_range val lo hi Hle) as Hr.
    repeat split; try apply Hr.
    + intros Hin. unfold clamp.
      destruct (Rlt_dec val lo); [lra |]. destruct (Rlt_dec hi val); lra.
    + intros Hlt. unfold clamp. destruct (Rlt_dec val lo); [reflexivity | lra].
    + intros Hgt. unfold clamp.
      destruct (Rlt_dec val lo); [lra |]. destruct (Rlt_dec hi val); lra.
    + unfold clamp at 1.
      destruct (Rlt_dec (clamp val lo hi) lo); [lra |].
      destruct (Rlt_dec hi (clamp val lo hi)); lra.
  - intros Hx. unfold py_max, py_min.
    destruct (Rlt_dec val hi); destruct (Rgt_dec _ lo); unfold Rgt in *; lra.
Qed.

Lemma utils_clamp_range_witness :
  Utils.clamp 150 0 100 = 100%R /\ Utils.clamp 5 10 0 = 10%R.
Proof.
  split.
  - apply (proj1 (utils_clamp_range 150 0 100)); lra.
  - apply (proj2 (utils_clamp_range 5 10 0)); lra.
Defined.

(** * Further properties: the loop on its own *)

Lemma pass_quiet e t th :
  at_pc th = AtWhile ->
  is_tracking t = true ->
  env_answers e ->
  at_pc (snd (fst (iteration e t th))) = AtWhile
  /\ snd (iteration e t th) = [].
Proof.
  intros Hpc Htr ((ct & Hnow) & (n & Hn) & (n' & Hn') & (r & Hr) & (r' & Hr') & Hsl).
  destruct t as [db cs ls tr sst ty mo ap], th as [p l],
           e as [en eno epn ety emo esl].
  simpl in *; subst. unfold iteration.
  destruct ls as [s |]; [| crunch_pass; split; reflexivity].
  crunch_pass.
  destruct (in_first_second_of_ten (ct - start_time s)); crunch_pass;
    split; reflexivity.
Qed.

Lemma pass_exit e t th :
  at_pc th = AtWhile ->
  is_tracking t = false ->
  iteration e t th = (t, goto Exited th, []).
Proof.
  intros Hpc Htr. destruct th as [p l]. simpl in Hpc. subst p.
  unfold iteration. simpl. unfold thread_step, exec_stmt. simpl.
  rewrite Htr. reflexivity.
Qed.

Lemma pass_exited e t th :
  at_pc th = Exited -> iteration e t th = (t, th, []).
Proof.
  intros Hpc. destruct th as [p l]. simpl in Hpc. subst p. reflexivity.
Qed.

Lemma loop_exited es : forall t th,
  at_pc th = Exited -> _tracking_loop es t th = (t, th, []).
Proof.
  induction es as [| e es IH]; intros t th Hpc; simpl; [reflexivity |].
  rewrite (pass_exited e t th Hpc), (IH t th Hpc). reflexivity.
Qed.

Lemma pass_tracker_locals e t th :
  at_pc th = AtWhile ->
  fst (fst (iteration e t th)) = fst (fst (iteration e t new_thread)).
Proof.
  intros Hpc.
  destruct t as [db cs ls tr sst ty mo ap], th as [p l],
           e as [en eno epn ety emo esl].
  simpl in Hpc; subst p. unfold iteration.
  destruct tr; [| reflexivity].
  destruct ls as [s |]; [| crunch_pass; destruct esl; reflexivity].
  destruct en as [ct |]; [| reflexivity].
  destruct eno as [n |]; [| reflexivity].
  destruct epn as [n' |]; [| reflexivity].
  crunch_pass.
  destruct (in_first_second_of_ten (ct - start_time s)); crunch_pass;
    destruct ety, emo, esl; reflexivity.
Qed.

(** X17. The loop of one thread, run on its own.  While the engine is
    tracking and the environment answers every call, each pass ends back at
    the loop guard without logging anything, so the loop never leaves by
    itself, and its tracker is the one the passes produce one after the
    other.  On an engine that is not tracking, the first test of the guard
    ends the loop at once, with no effect on the tracker and nothing
    logged, and the later passes do nothing. *)
Theorem tracking_loop_runs_until_flag_clears :
  forall es t th,
    at_pc th = AtWhile ->
    (is_tracking t = true ->
     Forall env_answers es ->
     at_pc (snd (fst (_tracking_loop es t th))) = AtWhile
     /\ snd (_tracking_loop es t th) = []
     /\ is_tracking (fst (fst (_tracking_loop es t th))) = true
     /\ fst (fst (_tracking_loop es t th)) = run_ops (map OpIteration es) t)
    /\ (is_tracking t = false ->
        es <> [] ->
        _tracking_loop es t th = (t, goto Exited th, [])).
Proof.
  intros es t th Hpc. split.
  - revert t th Hpc.
    induction es as [| e es IH]; intros t th Hpc Htr Hall; simpl.
    + repeat split; assumption.
    + apply Forall_cons_iff in Hall as [He Hall].
      destruct (pass_quiet e t th Hpc Htr He) as [Hpc1 Hev1].
      pose proof (iteration_frame e t th Hpc) as (Hflag & _).
      rewrite Htr in Hflag.
      pose proof (pass_tracker_locals e t th Hpc) as Hsame.
      destruct (iteration e t th) as [[t1 th1] ev1] eqn:Hit.
      simpl in Hpc1, Hev1, Hflag, Hsame.
      destruct (IH t1 th1 Hpc1 Hflag Hall) as (Hp & He' & Ht & Hl).
      destruct (_tracking_loop es t1 th1) as [[t2 th2] ev2] eqn:Hloop.
      simpl in *. subst ev1 ev2.
      split; [assumption |]. split; [reflexivity |]. split; [assumption |].
      rewrite Hl, Hsame. reflexivity.
  - intros Htr Hne. destruct es as [| e es]; [contradiction |]. simpl.
    rewrite (pass_exit e t th Hpc Htr).
    rewrite loop_exited by reflexivity. reflexivity.
Qed.

Lemma tracking_loop_runs_until_flag_clears_witness :
  let e := mkEnv (Ok 30000000) (Ok 1%R) (Ok 2%R) (Ok 7) (Ok 3) (Ok tt) in
  let t := fst (start_tracking 0 (MasterpieceActivityTracker None)) in
  at_pc (snd (fst (_tracking_loop [e; e; e] t new_thread))) = AtWhile
  /\ _tracking_loop [e; e] (fst (stop_tracking t)) new_thread
     = (fst (stop_tracking t), goto Exited new_thread, []).
Proof.
  intros e t.
  assert (He : env_answers e).
  { repeat split; try (eexists; reflexivity). }
  destruct (tracking_loop_runs_until_flag_clears [e; e; e] t new_thread eq_refl)
    as (Hrun & _).
  destruct (tracking_loop_runs_until_flag_clears [e; e]
              (fst (stop_tracking t)) new_thread eq_refl) as (_ & Hexit).
  split.
  - apply Hrun; [reflexivity |].
    repeat (apply Forall_cons; [exact He |]). apply Forall_nil.
  - apply Hexit; [reflexivity | discriminate].
Defined.
